(** * load-bpf: loading a BPF program and attaching it to a kprobe

    A shallow embedding of [src/c/load-bpf.c].  The program is a
    straight-line sequence of system calls; every call's outcome is
    decided by the kernel.  The embedding therefore runs each C function
    against a [Platform] (the kernel's answers, the process identity, the
    build-time constants) and records every system call and every line
    written to the error stream in a trace. *)

From Stdlib Require Import ZArith List Bool Lia Ascii String.
From Stdlib Require Import DecimalString DecimalZ DecimalPos DecimalFacts.
Import ListNotations.

Local Open Scope string_scope.
Local Open Scope Z_scope.

(** ** Strings and the libc formatting routines *)

Module Str.

(** The first [n] characters of [s]. *)
Fixpoint take (n : nat) (s : string) : string :=
  match n, s with
  | O, _ => EmptyString
  | S _, EmptyString => EmptyString
  | S n', String c s' => String c (take n' s')
  end.

(** [s] without its first [n] characters. *)
Fixpoint drop (n : nat) (s : string) : string :=
  match n, s with
  | O, _ => s
  | S _, EmptyString => EmptyString
  | S n', String _ s' => drop n' s'
  end.

(** A buffer holding [old] after [new] was stored at its start. *)
Definition overlay (new old : string) : string :=
  new ++ drop (String.length new) old.

(** The C string at the start of a buffer: up to the first terminator. *)
Fixpoint cstr (s : string) : string :=
  match s with
  | EmptyString => EmptyString
  | String c s' => if Ascii.eqb c zero then EmptyString else String c (cstr s')
  end.

(** [contains needle hay]: [needle] occurs in [hay] as a contiguous run. *)
Fixpoint contains (needle hay : string) : bool :=
  String.prefix needle hay
  || match hay with
     | EmptyString => false
     | String _ hay' => contains needle hay'
     end.

(** [snprintf(buf, size, ...)] stores at most [size - 1] characters of
    the formatted text [s], followed by the terminator; the C string left
    in [buf] is that prefix. *)
Definition snprintf (size : nat) (s : string) : string :=
  take (Nat.pred size) s.

(** The [%d] conversion: optional minus sign, decimal digits without
    leading zeros. *)
Definition fmt_d (z : Z) : string :=
  NilZero.string_of_int (Z.to_int z).

End Str.

(** ** Constants of the headers

    The values are those of the Linux UAPI headers and of the LP64 C
    ABI the program is built for. *)

Definition INT_MIN : Z := - 2 ^ 31.
Definition INT_MAX : Z := 2 ^ 31 - 1.
Definition LONG_MIN : Z := - 2 ^ 63.
Definition LONG_MAX : Z := 2 ^ 63 - 1.
Definition PATH_MAX : Z := 4096.
Definition LOG_BUF_SIZE : Z := 65536.

Definition O_RDONLY : Z := 0.
Definition O_WRONLY : Z := 1.
Definition O_APPEND : Z := 1024.

Definition ENOENT : Z := 2.
Definition SIGINT : Z := 2.

(** [PERF_FLAG_FD_CLOEXEC] is [1UL << 3]. *)
Definition PERF_FLAG_FD_CLOEXEC : Z := Z.shiftl 1 3.

(** Truncation to an unsigned 32- or 64-bit member. *)
Definition u32 (z : Z) : Z := z mod 2 ^ 32.
Definition u64 (z : Z) : Z := z mod 2 ^ 64.

(** [ptr_to_u64]: [(__u64)(unsigned long)ptr]. *)
Definition ptr_to_u64 (ptr : Z) : Z := u64 ptr.

Inductive bpf_cmd : Type :=
| BPF_MAP_CREATE | BPF_MAP_LOOKUP_ELEM | BPF_MAP_UPDATE_ELEM
| BPF_MAP_DELETE_ELEM | BPF_MAP_GET_NEXT_KEY | BPF_PROG_LOAD.

Inductive bpf_prog_type : Type :=
| BPF_PROG_TYPE_UNSPEC | BPF_PROG_TYPE_SOCKET_FILTER | BPF_PROG_TYPE_KPROBE
| BPF_PROG_TYPE_SCHED_CLS | BPF_PROG_TYPE_SCHED_ACT
| BPF_PROG_TYPE_TRACEPOINT.

(** The enumerators count from zero in declaration order. *)
Definition bpf_prog_type_code (t : bpf_prog_type) : Z :=
  match t with
  | BPF_PROG_TYPE_UNSPEC => 0
  | BPF_PROG_TYPE_SOCKET_FILTER => 1
  | BPF_PROG_TYPE_KPROBE => 2
  | BPF_PROG_TYPE_SCHED_CLS => 3
  | BPF_PROG_TYPE_SCHED_ACT => 4
  | BPF_PROG_TYPE_TRACEPOINT => 5
  end.

Inductive perf_type_id : Type :=
| PERF_TYPE_HARDWARE | PERF_TYPE_SOFTWARE | PERF_TYPE_TRACEPOINT
| PERF_TYPE_HW_CACHE | PERF_TYPE_RAW | PERF_TYPE_BREAKPOINT.

Inductive perf_ioctl : Type :=
| PERF_EVENT_IOC_ENABLE | PERF_EVENT_IOC_DISABLE | PERF_EVENT_IOC_SET_BPF.

(** ** The kprobe control line and the event directory

    The two [snprintf] calls of [attachKprobe] that build the alias and
    the line, and the third that builds the path handed to
    [attachTracingEvent]. *)

Definition BPF_PROBE_ENTRY : Z := 0.
Definition BPF_PROBE_RETURN : Z := 1.

Definition event_type : string := "kprobe".
Definition ev_name : string := "p_do_sys_open".
Definition fn_name : string := "do_sys_open".

(** [snprintf(event_alias, sizeof(event_alias), "%s_bcc_%d", ev_name, getpid())] *)
Definition mk_event_alias (ev : string) (pid : Z) : string :=
  Str.snprintf 128 (ev ++ "_bcc_" ++ Str.fmt_d pid).

Definition kind_char (attach_type : Z) : ascii :=
  if attach_type =? BPF_PROBE_ENTRY then "p"%char else "r"%char.

(** [snprintf(buf, sizeof(buf), "%c:%ss/%s %s", ...)] *)
Definition mk_control_line (attach_type : Z) (etype alias fn : string) : string :=
  Str.snprintf 256
    (String (kind_char attach_type) (":" ++ etype ++ "s/" ++ alias ++ " " ++ fn)).

(** [snprintf(buf, sizeof(buf), "/sys/kernel/debug/tracing/events/%ss/%s", ...)] *)
Definition mk_event_path (etype alias : string) : string :=
  Str.snprintf 256 ("/sys/kernel/debug/tracing/events/" ++ etype ++ "s/" ++ alias).

(** ** [strtol]

    The conversion of ISO C: leading white space, an optional sign, then
    the digits of the base; with base 0 the text decides the base ([0x]
    or [0X] before a hexadecimal digit: 16, a leading [0]: 8, otherwise
    10).  A value outside [long] is clamped; a text without digits
    converts to 0 and consumes nothing. *)

Module Libc.

Definition isspace (c : ascii) : bool :=
  let n := Z.of_nat (nat_of_ascii c) in
  (n =? 32) || ((9 <=? n) && (n <=? 13)).

Definition digit_value (c : ascii) : option Z :=
  let n := Z.of_nat (nat_of_ascii c) in
  if (48 <=? n) && (n <=? 57) then Some (n - 48)
  else if (97 <=? n) && (n <=? 122) then Some (n - 97 + 10)
  else if (65 <=? n) && (n <=? 90) then Some (n - 65 + 10)
  else None.

Definition digit_in (base : Z) (c : ascii) : option Z :=
  match digit_value c with
  | Some d => if d <? base then Some d else None
  | None => None
  end.

Fixpoint skip_space (s : string) : string :=
  match s with
  | String c s' => if isspace c then skip_space s' else s
  | EmptyString => s
  end.

(** The digits of [s] in [base], folded onto [acc]; with the number of
    characters consumed. *)
Fixpoint digits (base acc : Z) (s : string) : Z * nat :=
  match s with
  | String c s' =>
      match digit_in base c with
      | Some d => let (v, n) := digits base (acc * base + d) s' in (v, S n)
      | None => (acc, O)
      end
  | EmptyString => (acc, O)
  end.

Definition clamp_long (z : Z) : Z :=
  if z <? LONG_MIN then LONG_MIN
  else if LONG_MAX <? z then LONG_MAX
  else z.

Definition is_x (c : ascii) : bool :=
  Ascii.eqb c "x" || Ascii.eqb c "X".

(** The subject sequence after white space and sign: its base and the
    text its digits start at. *)
Definition subject (base : Z) (s : string) : Z * string :=
  match s with
  | String z (String x (String h r)) =>
      if Ascii.eqb z "0" && is_x x
         && match digit_in 16 h with Some _ => true | None => false end
         && ((base =? 0) || (base =? 16))
      then (16, String h r)
      else if (base =? 0) then (if Ascii.eqb z "0" then 8 else 10, s)
      else (base, s)
  | String z _ =>
      if (base =? 0) then (if Ascii.eqb z "0" then 8 else 10, s)
      else (base, s)
  | EmptyString => (if base =? 0 then 10 else base, s)
  end.

(** [strtol_conv s base]: the value, and whether any digit was
    converted (what [endptr] would tell a caller that passes one). *)
Definition strtol_conv (s : string) (base : Z) : Z * bool :=
  let s1 := skip_space s in
  let '(neg, s2) :=
    match s1 with
    | String c r =>
        if Ascii.eqb c "-" then (true, r)
        else if Ascii.eqb c "+" then (false, r)
        else (false, s1)
    | EmptyString => (false, s1)
    end in
  let '(b, s3) := subject base s2 in
  let '(mag, n) := digits b 0 s3 in
  (clamp_long (if neg then - mag else mag), negb (Nat.eqb n 0)).

(** [strtol(s, NULL, base)] *)
Definition strtol (s : string) (base : Z) : Z :=
  fst (strtol_conv s base).

End Libc.

Definition nl : string := String (ascii_of_nat 10) EmptyString.

(** ** Request records *)

(** [union bpf_attr], seen through the anonymous struct used by
    [BPF_PROG_LOAD].  The eight members the program names fill the first
    44 bytes without padding; [attr_rest] holds the remaining bytes of
    the union, whose number depends on the kernel headers. *)
Record bpf_attr : Type := {
  prog_type : Z;
  insn_cnt : Z;
  insns : Z;
  license : Z;
  log_level : Z;
  log_size : Z;
  log_buf : Z;
  kern_version : Z;
  attr_rest : list Z
}.

(** [memset(&attr, 0, sizeof(attr))] *)
Definition memset_bpf_attr (a : bpf_attr) : bpf_attr :=
  {| prog_type := 0; insn_cnt := 0; insns := 0; license := 0;
     log_level := 0; log_size := 0; log_buf := 0; kern_version := 0;
     attr_rest := List.map (fun _ => 0) (attr_rest a) |}.

Definition sizeof_bpf_attr (a : bpf_attr) : Z :=
  44 + Z.of_nat (List.length (attr_rest a)).

Definition set_prog_type (v : Z) (a : bpf_attr) : bpf_attr :=
  {| prog_type := v; insn_cnt := insn_cnt a; insns := insns a;
     license := license a; log_level := log_level a; log_size := log_size a;
     log_buf := log_buf a; kern_version := kern_version a;
     attr_rest := attr_rest a |}.

Definition set_insns (v : Z) (a : bpf_attr) : bpf_attr :=
  {| prog_type := prog_type a; insn_cnt := insn_cnt a; insns := v;
     license := license a; log_level := log_level a; log_size := log_size a;
     log_buf := log_buf a; kern_version := kern_version a;
     attr_rest := attr_rest a |}.

Definition set_insn_cnt (v : Z) (a : bpf_attr) : bpf_attr :=
  {| prog_type := prog_type a; insn_cnt := v; insns := insns a;
     license := license a; log_level := log_level a; log_size := log_size a;
     log_buf := log_buf a; kern_version := kern_version a;
     attr_rest := attr_rest a |}.

Definition set_license (v : Z) (a : bpf_attr) : bpf_attr :=
  {| prog_type := prog_type a; insn_cnt := insn_cnt a; insns := insns a;
     license := v; log_level := log_level a; log_size := log_size a;
     log_buf := log_buf a; kern_version := kern_version a;
     attr_rest := attr_rest a |}.

Definition set_log_buf (v : Z) (a : bpf_attr) : bpf_attr :=
  {| prog_type := prog_type a; insn_cnt := insn_cnt a; insns := insns a;
     license := license a; log_level := log_level a; log_size := log_size a;
     log_buf := v; kern_version := kern_version a;
     attr_rest := attr_rest a |}.

Definition set_log_size (v : Z) (a : bpf_attr) : bpf_attr :=
  {| prog_type := prog_type a; insn_cnt := insn_cnt a; insns := insns a;
     license := license a; log_level := log_level a; log_size := v;
     log_buf := log_buf a; kern_version := kern_version a;
     attr_rest := attr_rest a |}.

Definition set_log_level (v : Z) (a : bpf_attr) : bpf_attr :=
  {| prog_type := prog_type a; insn_cnt := insn_cnt a; insns := insns a;
     license := license a; log_level := v; log_size := log_size a;
     log_buf := log_buf a; kern_version := kern_version a;
     attr_rest := attr_rest a |}.

Definition set_kern_version (v : Z) (a : bpf_attr) : bpf_attr :=
  {| prog_type := prog_type a; insn_cnt := insn_cnt a; insns := insns a;
     license := license a; log_level := log_level a; log_size := log_size a;
     log_buf := log_buf a; kern_version := v;
     attr_rest := attr_rest a |}.

(** [struct perf_event_attr]: the members the program assigns, and the
    other leading members of the struct, all cleared by the [= {}]
    initializer. *)
Record perf_event_attr : Type := {
  type : Z;
  size : Z;
  config : Z;
  sample_period : Z;
  sample_type : Z;
  read_format : Z;
  flag_bits : Z;
  wakeup_events : Z
}.

Definition perf_type_code (t : perf_type_id) : Z :=
  match t with
  | PERF_TYPE_HARDWARE => 0
  | PERF_TYPE_SOFTWARE => 1
  | PERF_TYPE_TRACEPOINT => 2
  | PERF_TYPE_HW_CACHE => 3
  | PERF_TYPE_RAW => 4
  | PERF_TYPE_BREAKPOINT => 5
  end.

Definition perf_event_attr_zero : perf_event_attr :=
  {| type := 0; size := 0; config := 0; sample_period := 0;
     sample_type := 0; read_format := 0; flag_bits := 0;
     wakeup_events := 0 |}.

Definition set_config (v : Z) (a : perf_event_attr) : perf_event_attr :=
  {| type := type a; size := size a; config := v;
     sample_period := sample_period a; sample_type := sample_type a;
     read_format := read_format a; flag_bits := flag_bits a;
     wakeup_events := wakeup_events a |}.

Definition set_type (v : Z) (a : perf_event_attr) : perf_event_attr :=
  {| type := v; size := size a; config := config a;
     sample_period := sample_period a; sample_type := sample_type a;
     read_format := read_format a; flag_bits := flag_bits a;
     wakeup_events := wakeup_events a |}.

Definition set_sample_period (v : Z) (a : perf_event_attr) : perf_event_attr :=
  {| type := type a; size := size a; config := config a;
     sample_period := v; sample_type := sample_type a;
     read_format := read_format a; flag_bits := flag_bits a;
     wakeup_events := wakeup_events a |}.

Definition set_wakeup_events (v : Z) (a : perf_event_attr) : perf_event_attr :=
  {| type := type a; size := size a; config := config a;
     sample_period := sample_period a; sample_type := sample_type a;
     read_format := read_format a; flag_bits := flag_bits a;
     wakeup_events := v |}.

(** One instruction of the program. *)
Record bpf_insn : Type := {
  code : Z;
  dst_reg : Z;
  src_reg : Z;
  off : Z;
  imm : Z
}.

Definition insn (c d s o i : Z) : bpf_insn :=
  {| code := c; dst_reg := d; src_reg := s; off := o; imm := i |}.

(** The array [prog] of [main]. *)
Definition prog : list bpf_insn :=
  [ insn 0x18 1 0 0 1914727791;
    insn 0x00 0 0 0 175403893;
    insn 0x7b 10 1 (-24) 0;
    insn 0x18 1 0 0 1819043176;
    insn 0x00 0 0 0 1919295599;
    insn 0x7b 10 1 (-32) 0;
    insn 0xb7 1 0 0 0;
    insn 0x73 10 1 (-16) 0;
    insn 0xbf 1 10 0 0;
    insn 0x07 1 0 0 (-32);
    insn 0xb7 2 0 0 17;
    insn 0x85 0 0 0 6;
    insn 0xb7 0 0 0 0;
    insn 0x95 0 0 0 0 ].

(** ** The platform: kernel, libc tables, build-time constants *)

(** What one system call gives back: its return value, the [errno] it
    leaves when it fails, the bytes it stores through a buffer argument
    and the integer it stores through an [int *] argument. *)
Record Reply : Type := {
  r_ret : Z;
  r_errno : Z;
  r_data : string;
  r_int : Z
}.

Inductive Call : Type :=
| c_bpf (cmd : bpf_cmd) (attr : bpf_attr) (sz : Z)
| c_open (pathname : string) (flags mode : Z)
| c_write (fd : Z) (buf : string) (count : Z)
| c_read (fd : Z) (count : Z)
| c_close (fd : Z)
| c_perf_event_open (attr : perf_event_attr) (pid cpu group_fd flags : Z)
| c_ioctl (fd : Z) (request : perf_ioctl) (arg : Z)
| c_sigprocmask (how : Z) (set : list Z)
| c_sigwait (set : list Z).

(** What a run leaves behind, in order: system calls with the kernel's
    reply, and texts written to [stderr]. *)
Inductive Event : Type :=
| Sys (c : Call) (r : Reply)
| Stderr (text : string).

(** [answers n] is the kernel's reply to the [n]-th system call of the
    run (counting from 0); quantifying over it covers every behaviour of
    the kernel.  [stack_attr] is what the automatic variable [attr] of
    [bpf_prog_load] holds before it is written; the three addresses are
    those of [prog], of the literal ["GPL"] and of [bpf_log_buf]. *)
Record Platform : Type := {
  answers : nat -> Reply;
  strerror : Z -> string;
  getpid : Z;
  LINUX_VERSION_CODE : Z;
  stack_attr : bpf_attr;
  addr_prog : Z;
  addr_license : Z;
  addr_bpf_log_buf : Z
}.

(** The process state the functions share: the number of system calls
    made so far, [errno], and the global [bpf_log_buf]. *)
Record State : Type := {
  calls : nat;
  errno : Z;
  bpf_log_buf : string
}.

Definition init : State :=
  {| calls := O; errno := 0; bpf_log_buf := EmptyString |}.

(** ** A state monad that also collects the events *)

Definition M (A : Type) : Type := State -> A * State * list Event.

Definition ret {A : Type} (a : A) : M A :=
  fun s => (a, s, []).

Definition bind {A B : Type} (m : M A) (k : A -> M B) : M B :=
  fun s =>
    let '(a, s1, t1) := m s in
    let '(b, s2, t2) := k a s1 in
    (b, s2, (t1 ++ t2)%list).

Declare Scope io_scope.
Delimit Scope io_scope with io.
Notation "x <- m ;; k" := (bind m (fun x => k))
  (at level 100, m at next level, right associativity) : io_scope.
Notation "' pat <- m ;; k" := (bind m (fun x => match x with pat => k end))
  (at level 100, pat pattern, m at next level, right associativity) : io_scope.
Notation "m ;; k" := (bind m (fun _ => k))
  (at level 100, right associativity) : io_scope.
Local Open Scope io_scope.

Definition value {A : Type} (o : A * State * list Event) : A := fst (fst o).
Definition final {A : Type} (o : A * State * list Event) : State := snd (fst o).
Definition events {A : Type} (o : A * State * list Event) : list Event := snd o.

(** A system call: the platform answers, a negative return sets
    [errno]. *)
Definition sys (P : Platform) (c : Call) : M Reply :=
  fun s =>
    let r := answers P (calls s) in
    (r,
     {| calls := S (calls s);
        errno := if r_ret r <? 0 then r_errno r else errno s;
        bpf_log_buf := bpf_log_buf s |},
     [Sys c r]).

(** [syscall(__NR_bpf, cmd, &attr, sizeof(attr))]: with a log level
    set, the kernel also stores its verifier text through
    [attr.log_buf], cut to [attr.log_size - 1] characters. *)
Definition sys_bpf (P : Platform) (cmd : bpf_cmd) (attr : bpf_attr) : M Z :=
  fun s =>
    let '(r, s1, t) := sys P (c_bpf cmd attr (sizeof_bpf_attr attr)) s in
    (r_ret r,
     {| calls := calls s1;
        errno := errno s1;
        bpf_log_buf :=
          if (0 <? log_level attr) && (log_buf attr =? ptr_to_u64 (addr_bpf_log_buf P))
          then Str.take (Z.to_nat (log_size attr - 1)) (r_data r)
          else bpf_log_buf s1 |},
     t).

Definition get_errno : M Z :=
  fun s => (errno s, s, []).

Definition set_errno (e : Z) : M unit :=
  fun s => (tt, {| calls := calls s; errno := e; bpf_log_buf := bpf_log_buf s |}, []).

(** [fprintf(stderr, ...)] with the formatted text. *)
Definition eprint (text : string) : M unit :=
  fun s => (tt, s, [Stderr text]).

(** [perror(msg)] *)
Definition perror (P : Platform) (msg : string) : M unit :=
  e <- get_errno ;;
  eprint (msg ++ ": " ++ strerror P e ++ nl).

(** [close(fd)]; no caller looks at the result. *)
Definition close (P : Platform) (fd : Z) : M unit :=
  _ <- sys P (c_close fd) ;; ret tt.

(** ** [bpf_prog_load] *)

Definition bpf_prog_load_attr (P : Platform) (ty : bpf_prog_type)
    (insns_p insn_count license_p : Z) : bpf_attr :=
  let attr := stack_attr P in
  let attr := memset_bpf_attr attr in
  let attr := set_prog_type (u32 (bpf_prog_type_code ty)) attr in
  let attr := set_insns (ptr_to_u64 insns_p) attr in
  let attr := set_insn_cnt (u32 insn_count) attr in
  let attr := set_license (ptr_to_u64 license_p) attr in
  let attr := set_log_buf (ptr_to_u64 (addr_bpf_log_buf P)) attr in
  let attr := set_log_size (u32 LOG_BUF_SIZE) attr in
  let attr := set_log_level 1 attr in
  let attr := set_kern_version (u32 (LINUX_VERSION_CODE P)) attr in
  attr.

Definition bpf_prog_load (P : Platform) (ty : bpf_prog_type)
    (insns_p insn_count license_p : Z) : M Z :=
  sys_bpf P BPF_PROG_LOAD (bpf_prog_load_attr P ty insns_p insn_count license_p).

(** ** [waitForSigInt] *)

Definition EINVAL : Z := 22.
Definition SIG_BLOCK : Z := 0.

Definition sigemptyset : list Z := [].

(** [sigaddset(&set, signum)]: libc accepts the signal numbers 1..64. *)
Definition sigaddset (set : list Z) (signum : Z) : M (Z * list Z) :=
  if (1 <=? signum) && (signum <=? 64) then ret (0, signum :: set)
  else (set_errno EINVAL ;; ret (-1, set)).

Definition waitForSigInt (P : Platform) : M Z :=
  let set := sigemptyset in
  '(rc, set) <- sigaddset set SIGINT ;;
  if rc <? 0 then
    (perror P "Error calling sigaddset()" ;; ret 1)
  else
    r <- sys P (c_sigprocmask SIG_BLOCK set) ;;
    let rc := r_ret r in
    if rc <? 0 then
      (perror P "Error calling sigprocmask()" ;; ret 1)
    else
      r <- sys P (c_sigwait set) ;;
      let rc := r_ret r in
      let sig := r_int r in
      if rc <? 0 then
        (perror P "Error calling sigwait()" ;; ret 1)
      else if sig =? SIGINT then
        (eprint ("SIGINT received!" ++ nl) ;; ret 0)
      else
        (eprint ("Unexpected signal received: " ++ Str.fmt_d sig ++ nl) ;; ret 0).

(** ** [attachTracingEvent] *)

(** [buf] after [read(efd, buf, sizeof(buf))] returned [bytes]: the
    kernel stored that many bytes (never more than asked for) at its
    start. *)
Definition buf_after_read (buf : string) (bytes : Z) (data : string) : string :=
  Str.overlay (Str.take (Z.to_nat (Z.min bytes PATH_MAX)) data) buf.

(** The text [strtol] is given: [buf] with [buf[bytes] = '\0']. *)
Definition id_text (buf : string) (bytes : Z) (data : string) : string :=
  Str.take (Z.to_nat bytes) (buf_after_read buf bytes data).

(** The request built from the text of the [id] file. *)
Definition tracing_event_attr (text : string) : perf_event_attr :=
  let attr := perf_event_attr_zero in
  let attr := set_config (u64 (Libc.strtol text 0)) attr in
  let attr := set_type (u32 (perf_type_code PERF_TYPE_TRACEPOINT)) attr in
  let attr := set_sample_period 1 attr in
  let attr := set_wakeup_events 1 attr in
  attr.

(** The result pairs the return value with the value left in [*pfd]. *)
Definition attachTracingEvent (P : Platform) (progFd : Z)
    (event_path : string) (pfd : Z) : M (Z * Z) :=
  let buf := Str.snprintf (Z.to_nat PATH_MAX) (event_path ++ "/id") in
  r <- sys P (c_open buf O_RDONLY 0) ;;
  let efd := r_ret r in
  if efd <? 0 then
    (e <- get_errno ;;
     eprint ("open(" ++ buf ++ "): " ++ strerror P e ++ nl) ;;
     ret (-1, pfd))
  else
    r <- sys P (c_read efd PATH_MAX) ;;
    let bytes := r_ret r in
    if (bytes <=? 0) || (u64 bytes >=? PATH_MAX) then
      (e <- get_errno ;;
       eprint ("read(" ++ Str.cstr (buf_after_read buf bytes (r_data r))
               ++ "): " ++ strerror P e ++ nl) ;;
       close P efd ;;
       ret (-1, pfd))
    else
      close P efd ;;
      let attr := tracing_event_attr (id_text buf bytes (r_data r)) in
      r <- sys P (c_perf_event_open attr (-1) 0 (-1) PERF_FLAG_FD_CLOEXEC) ;;
      let pfd := r_ret r in
      if pfd <? 0 then
        (e <- get_errno ;;
         eprint ("perf_event_open(" ++ event_path ++ "/id): "
                 ++ strerror P e ++ nl) ;;
         ret (-1, pfd))
      else
        r <- sys P (c_ioctl pfd PERF_EVENT_IOC_SET_BPF progFd) ;;
        if r_ret r <? 0 then
          (perror P "ioctl(PERF_EVENT_IOC_SET_BPF)" ;; ret (-1, pfd))
        else
          r <- sys P (c_ioctl pfd PERF_EVENT_IOC_ENABLE 0) ;;
          if r_ret r <? 0 then
            (perror P "ioctl(PERF_EVENT_IOC_ENABLE)" ;; ret (-1, pfd))
          else
            ret (0, pfd).

(** ** [attachKprobe] *)

Definition kprobe_events : string :=
  "/sys/kernel/debug/tracing/kprobe_events".

Definition attachKprobe (P : Platform) (progFd : Z) : M Z :=
  r <- sys P (c_open kprobe_events (Z.lor O_WRONLY O_APPEND) 0) ;;
  let kfd := r_ret r in
  if kfd <? 0 then
    (perror P "Error opening /sys/kernel/debug/tracing/kprobe_events" ;;
     ret (-1))
  else
    let event_alias := mk_event_alias ev_name (getpid P) in
    let attach_type := BPF_PROBE_ENTRY in
    let buf := mk_control_line attach_type event_type event_alias fn_name in
    r <- sys P (c_write kfd buf (Z.of_nat (String.length buf))) ;;
    if r_ret r <? 0 then
      (e <- get_errno ;;
       (if e =? ENOENT then
          eprint ("cannot attach kprobe, probe entry may not exist" ++ nl)
        else
          eprint ("cannot attach kprobe, " ++ strerror P e ++ nl)) ;;
       close P kfd ;;
       ret (-1))
    else
      close P kfd ;;
      let buf := mk_event_path event_type event_alias in
      let pfd := -1 in
      '(rc, pfd) <- attachTracingEvent P progFd buf pfd ;;
      if rc <? 0 then ret (-1) else ret pfd.

(** ** [main] *)

Definition run_hint : string :=
  "Run `sudo cat /sys/kernel/debug/tracing/trace_pipe` in another terminal to verify bpf_trace_printk() is working as expected." ++ nl.

Definition main (P : Platform) : M Z :=
  let insn_count := Z.of_nat (List.length prog) in
  progFd <- bpf_prog_load P BPF_PROG_TYPE_KPROBE (addr_prog P) insn_count
              (addr_license P) ;;
  if progFd =? -1 then
    (perror P "Error calling bpf_prog_load()" ;; ret 1)
  else
    perfEventFd <- attachKprobe P progFd ;;
    if perfEventFd <? 0 then
      (perror P "Error calling attachKprobe()" ;;
       close P progFd ;;
       ret 1)
    else
      eprint run_hint ;;
      exitCode <- waitForSigInt P ;;
      close P perfEventFd ;;
      close P progFd ;;
      ret exitCode.

(** ** Reading a trace *)

(** The descriptor an event created, when the call returned one. *)
Definition acquired (e : Event) : option Z :=
  match e with
  | Sys (c_bpf BPF_PROG_LOAD _ _) r
  | Sys (c_open _ _ _) r
  | Sys (c_perf_event_open _ _ _ _ _) r =>
      if 0 <=? r_ret r then Some (r_ret r) else None
  | _ => None
  end.

(** The descriptor an event released. *)
Definition released (e : Event) : option Z :=
  match e with
  | Sys (c_close fd) _ => Some fd
  | _ => None
  end.

Fixpoint pick {A B : Type} (f : A -> option B) (l : list A) : list B :=
  match l with
  | [] => []
  | a :: l' =>
      match f a with
      | Some b => b :: pick f l'
      | None => pick f l'
      end
  end.

Definition acquisitions (t : list Event) : list Z := pick acquired t.
Definition releases (t : list Event) : list Z := pick released t.

(** Replays a trace against the stack of descriptors held: every
    release must give back the most recently acquired descriptor still
    held; the result is what is still held at the end, or [None] when a
    release broke the order or released something not held. *)
Fixpoint replay (held : list Z) (t : list Event) : option (list Z) :=
  match t with
  | [] => Some held
  | e :: t' =>
      match acquired e, released e with
      | Some fd, _ => replay (fd :: held) t'
      | None, Some fd =>
          match held with
          | top :: held' => if top =? fd then replay held' t' else None
          | [] => None
          end
      | None, None => replay held t'
      end
  end.

(** Every descriptor created was released once, last acquired first. *)
Definition balanced (t : list Event) : bool :=
  match replay [] t with
  | Some [] => true
  | _ => false
  end.

(** The text on the error stream. *)
Definition stderr_text (t : list Event) : string :=
  String.concat "" (pick (fun e => match e with Stderr x => Some x | _ => None end) t).

(** The buffers written, and the paths opened. *)
Definition writes (t : list Event) : list string :=
  pick (fun e => match e with
                 | Sys (c_write _ b _) _ => Some b
                 | _ => None
                 end) t.

Definition opens (t : list Event) : list string :=
  pick (fun e => match e with
                 | Sys (c_open p _ _) _ => Some p
                 | _ => None
                 end) t.

(** The sampling-event requests: attribute record and the four scalar
    arguments. *)
Definition perf_requests (t : list Event)
  : list (perf_event_attr * Z * Z * Z * Z) :=
  pick (fun e => match e with
                 | Sys (c_perf_event_open a p c g f) _ => Some (a, p, c, g, f)
                 | _ => None
                 end) t.

(** The load requests submitted. *)
Definition load_requests (t : list Event) : list bpf_attr :=
  pick (fun e => match e with
                 | Sys (c_bpf BPF_PROG_LOAD a _) _ => Some a
                 | _ => None
                 end) t.

(** A platform whose kernel gives the listed replies in order and fails
    every later call. *)
Definition reply (v : Z) : Reply :=
  {| r_ret := v; r_errno := 0; r_data := EmptyString; r_int := 0 |}.
Definition failure (e : Z) : Reply :=
  {| r_ret := -1; r_errno := e; r_data := EmptyString; r_int := 0 |}.
Definition tape (l : list Reply) : nat -> Reply :=
  fun n => List.nth n l (failure EINVAL).

(** ** Concrete platforms *)

(** The messages of [strerror] on Linux for the error numbers used
    below. *)
Definition strerror_linux (e : Z) : string :=
  match e with
  | 0 => "Success"
  | 1 => "Operation not permitted"
  | 2 => "No such file or directory"
  | 13 => "Permission denied"
  | 22 => "Invalid argument"
  | _ => "Unknown error " ++ Str.fmt_d e
  end.

(** Stack contents that are not zero anywhere. *)
Definition stale_attr : bpf_attr :=
  {| prog_type := 7; insn_cnt := 9; insns := 1; license := 2;
     log_level := 3; log_size := 4; log_buf := 5; kern_version := 6;
     attr_rest := [255; 1; 2; 3] |}.

(** A process [pid] on a 4.19 kernel whose system calls are answered by
    [l]. *)
Definition linux (pid : Z) (l : list Reply) : Platform :=
  {| answers := tape l;
     strerror := strerror_linux;
     getpid := pid;
     LINUX_VERSION_CODE := 267008;
     stack_attr := stale_attr;
     addr_prog := 140720000000000;
     addr_license := 4202496;
     addr_bpf_log_buf := 6295648 |}.

Definition stored (n : Z) (d : string) : Reply :=
  {| r_ret := n; r_errno := 0; r_data := d; r_int := 0 |}.
Definition delivered (sig : Z) : Reply :=
  {| r_ret := 0; r_errno := 0; r_data := EmptyString; r_int := sig |}.
Definition rejected (e : Z) (text : string) : Reply :=
  {| r_ret := -1; r_errno := e; r_data := text; r_int := 0 |}.

(** The replies up to the creation of the sampling event, descriptor 5:
    program descriptor 3, control file 4 (written, closed), [id] file 4
    holding [text] (read, closed). *)
Definition until_created (text : string) : list Reply :=
  [ reply 3; reply 4; reply 44; reply 0;
    reply 4; stored (Z.of_nat (String.length text)) text; reply 0;
    reply 5 ].

(** Everything succeeds and [sig] ends the wait. *)
Definition P_run (sig : Z) : Platform :=
  linux 4711
    (until_created ("1234" ++ nl)
     ++ [ reply 0; reply 0; reply 0; delivered sig; reply 0; reply 0 ]).

(** The same successful run made by another process. *)
Definition P_other : Platform :=
  linux 4712
    (until_created ("1234" ++ nl)
     ++ [ reply 0; reply 0; reply 0; delivered SIGINT; reply 0; reply 0 ]).

(** Binding the program to the event is refused. *)
Definition P_bind_refused : Platform :=
  linux 4711 (until_created ("1234" ++ nl) ++ [ failure 1 ]).

(** The verifier rejects the program and explains why. *)
Definition verifier_text : string := "unknown opcode 00" ++ nl.
Definition P_rejected : Platform :=
  linux 4711 [ rejected EINVAL verifier_text ].

(** The [id] file holds no number. *)
Definition P_garbage_id : Platform :=
  linux 4711
    (until_created ("garbage" ++ nl)
     ++ [ reply 0; reply 0; reply 0; delivered SIGINT; reply 0; reply 0 ]).

(** The load returns a negative value other than -1; every later call
    succeeds as in [P_run]. *)
Definition P_load_minus2 : Platform :=
  linux 4711
    ([ reply (-2); reply 4; reply 44; reply 0;
       reply 4; stored 5 ("1234" ++ nl); reply 0; reply 5;
       reply 0; reply 0; reply 0; delivered SIGINT; reply 0; reply 0 ]).

(** The values of type [int]; [getpid] returns one. *)
Definition in_int (z : Z) : Prop := INT_MIN <= z <= INT_MAX.

(** The process state after [n] system calls that all succeeded. *)
Definition after (n : nat) : State :=
  {| calls := n; errno := 0; bpf_log_buf := EmptyString |}.


(** The scope arguments of [perf_event_open]: [pid = -1] selects every
    process and [cpu = -1] every CPU, while [cpu >= 0] restricts the
    event to that one CPU. *)
Definition no_particular_process (pid : Z) : bool := pid =? -1.
Definition no_particular_cpu (cpu : Z) : bool := cpu =? -1.

(** The [ioctl] calls of a trace with what each returned. *)
Definition ioctl_log (t : list Event) : list (Z * perf_ioctl * Z * Z) :=
  pick (fun e => match e with
                 | Sys (c_ioctl fd rq a) r => Some (fd, rq, a, r_ret r)
                 | _ => None
                 end) t.

(** The descriptor [perf_event_open] returned, when it returned one. *)
Definition perf_created (t : list Event) : option Z :=
  match pick (fun e => match e with
                       | Sys (c_perf_event_open _ _ _ _ _) r =>
                           if 0 <=? r_ret r then Some (r_ret r) else None
                       | _ => None
                       end) t with
  | fd :: _ => Some fd
  | [] => None
  end.

(** The signal sets waited on. *)
Definition sigwaits (t : list Event) : list (list Z) :=
  pick (fun e => match e with
                 | Sys (c_sigwait set) _ => Some set
                 | _ => None
                 end) t.

(** The kernel does not know the symbol: the write to the control
    file fails with [ENOENT]. *)
Definition P_no_symbol : Platform :=
  linux 4711 [ reply 3; reply 4; failure ENOENT; reply 0; reply 0 ].

(** The descriptors returned by [open], in the order of the calls. *)
Definition opened_files (t : list Event) : list Z :=
  pick (fun e => match e with
                 | Sys (c_open _ _ _) r =>
                     if 0 <=? r_ret r then Some (r_ret r) else None
                 | _ => None
                 end) t.

(** The values of type [long]; [read] returns one. *)
Definition in_long (z : Z) : Prop := LONG_MIN <= z <= LONG_MAX.

(** * Properties *)

(** ** The models on small inputs *)

Example fmt_d_examples :
  Str.fmt_d 4711 = "4711" /\ Str.fmt_d 0 = "0" /\ Str.fmt_d (-12) = "-12".
Proof. repeat split. Qed.

Example strtol_examples :
  Libc.strtol ("  -17abc") 0 = -17
  /\ Libc.strtol "0xg" 0 = 0
  /\ Libc.strtol "99999999999999999999" 0 = LONG_MAX
  /\ Libc.strtol "-99999999999999999999" 0 = LONG_MIN.
Proof. repeat split. Qed.

Example control_line_4711 :
  mk_control_line BPF_PROBE_ENTRY event_type (mk_event_alias ev_name 4711) fn_name
  = "p:kprobes/p_do_sys_open_bcc_4711 do_sys_open"
  /\ mk_control_line BPF_PROBE_RETURN event_type (mk_event_alias ev_name 4711) fn_name
     = "r:kprobes/p_do_sys_open_bcc_4711 do_sys_open"
  /\ mk_event_path event_type (mk_event_alias ev_name 4711)
     = "/sys/kernel/debug/tracing/events/kprobes/p_do_sys_open_bcc_4711".
Proof. repeat split. Qed.

Example successful_run :
  value (main (P_run SIGINT) init) = 0
  /\ opens (events (main (P_run SIGINT) init))
     = [ kprobe_events;
         "/sys/kernel/debug/tracing/events/kprobes/p_do_sys_open_bcc_4711/id" ]
  /\ ioctl_log (events (main (P_run SIGINT) init))
     = [ (5, PERF_EVENT_IOC_SET_BPF, 3, 0); (5, PERF_EVENT_IOC_ENABLE, 0, 0) ]
  /\ releases (events (main (P_run SIGINT) init)) = [4; 4; 5; 3].
Proof. repeat split; vm_compute; reflexivity. Qed.

(** ** Strings *)

Lemma length_append (a b : string) :
  String.length (a ++ b) = (String.length a + String.length b)%nat.
Proof.
  induction a as [|c a IH]; simpl; [reflexivity|].
  now rewrite IH.
Qed.

Lemma take_all (n : nat) (s : string) :
  (String.length s <= n)%nat -> Str.take n s = s.
Proof.
  revert n; induction s as [|c s IH]; intros [|n] H; simpl in *;
    try reflexivity; try lia.
  f_equal. apply IH. lia.
Qed.

Lemma snprintf_fits (size : nat) (s : string) :
  (String.length s < size)%nat -> Str.snprintf size s = s.
Proof.
  intros H. unfold Str.snprintf. apply take_all. lia.
Qed.

Lemma append_inj_l (a b c : string) : a ++ b = a ++ c -> b = c.
Proof.
  induction a as [|x a IH]; simpl; intros H; [exact H|].
  injection H as H. auto.
Qed.

Lemma append_inj_r (a b c : string) : a ++ c = b ++ c -> a = b.
Proof.
  revert b; induction a as [|x a IH]; intros [|y b] H; simpl in H.
  - reflexivity.
  - apply (f_equal String.length) in H. simpl in H.
    rewrite length_append in H. lia.
  - apply (f_equal String.length) in H. simpl in H.
    rewrite length_append in H. lia.
  - injection H as -> H. f_equal. auto.
Qed.

(** ** The [%d] conversion *)

Lemma double_digits (d : Decimal.uint) :
  (Decimal.nb_digits (Decimal.Little.double d) <= S (Decimal.nb_digits d))%nat
  /\ (Decimal.nb_digits (Decimal.Little.succ_double d)
      <= S (Decimal.nb_digits d))%nat.
Proof.
  induction d as [|d [IH1 IH2]|d [IH1 IH2]|d [IH1 IH2]|d [IH1 IH2]
                  |d [IH1 IH2]|d [IH1 IH2]|d [IH1 IH2]|d [IH1 IH2]
                  |d [IH1 IH2]|d [IH1 IH2]];
    simpl; split; lia.
Qed.

Lemma to_little_uint_digits (p : positive) :
  (Decimal.nb_digits (Pos.to_little_uint p) <= Pos.size_nat p)%nat.
Proof.
  induction p as [p IH|p IH|]; simpl.
  - pose proof (proj2 (double_digits (Pos.to_little_uint p))). lia.
  - pose proof (proj1 (double_digits (Pos.to_little_uint p))). lia.
  - lia.
Qed.

Lemma string_of_uint_length (d : Decimal.uint) :
  String.length (NilEmpty.string_of_uint d) = Decimal.nb_digits d.
Proof.
  induction d; simpl; congruence.
Qed.

Lemma to_uint_length (p : positive) :
  (String.length (NilZero.string_of_uint (Pos.to_uint p)) <= Pos.size_nat p)%nat.
Proof.
  pose proof (Unsigned.to_uint_nonnil p) as Hn.
  unfold NilZero.string_of_uint.
  destruct (Pos.to_uint p) eqn:E; try congruence;
    rewrite <- E, string_of_uint_length;
    unfold Pos.to_uint; rewrite nb_digits_rev; apply to_little_uint_digits.
Qed.

Lemma size_nat_int (p : positive) :
  (Z.pos p <= 2 ^ 31)%Z -> (Pos.size_nat p <= 32)%nat.
Proof.
  intros H.
  change 32%nat with (Pos.size_nat (2 ^ 31)%positive).
  destruct (Pos.eq_dec p (2 ^ 31)%positive) as [->|Hne]; [lia|].
  apply Pos.size_nat_monotone. lia.
Qed.

(** An [int] prints in at most 33 characters (a bound that is generous
    and easy to establish: one character per bit and the sign). *)
Lemma fmt_d_length (z : Z) :
  INT_MIN <= z <= INT_MAX -> (String.length (Str.fmt_d z) <= 33)%nat.
Proof.
  unfold INT_MIN, INT_MAX, Str.fmt_d. intros H.
  destruct z as [|p|p]; simpl.
  - lia.
  - pose proof (to_uint_length p). pose proof (size_nat_int p). lia.
  - pose proof (to_uint_length p). pose proof (size_nat_int p). lia.
Qed.

Lemma fmt_d_inj (a b : Z) : Str.fmt_d a = Str.fmt_d b -> a = b.
Proof.
  unfold Str.fmt_d. intros H.
  apply DecimalZ.to_int_inj.
  assert (Hnn : forall z, Z.to_int z <> Decimal.Pos Decimal.Nil
                          /\ Z.to_int z <> Decimal.Neg Decimal.Nil).
  { intros [|p|p]; simpl; split; try discriminate;
      intros [= E]; now apply (Unsigned.to_uint_nonnil p). }
  pose proof (NilZero.isi (Z.to_int a) (proj1 (Hnn a)) (proj2 (Hnn a))) as Ha.
  pose proof (NilZero.isi (Z.to_int b) (proj1 (Hnn b)) (proj2 (Hnn b))) as Hb.
  rewrite H in Ha. congruence.
Qed.

(** ** [strtol] reads back what [%d] printed *)

Lemma fst_digits_step (p : Z * nat) :
  fst (let (v, n) := p in (v, S n)) = fst p.
Proof. now destruct p. Qed.

Lemma digits_of_uint (d : Decimal.uint) (acc : positive) (rest : string) :
  fst (Libc.digits 10 (Z.pos acc) (NilEmpty.string_of_uint d ++ nl ++ rest))
  = Z.pos (Pos.of_uint_acc d acc).
Proof.
  revert acc; induction d; intros acc;
    cbn [NilEmpty.string_of_uint append Pos.of_uint_acc];
    try reflexivity;
    cbn [Libc.digits];
    match goal with
    | |- context [Libc.digit_in 10 ?c] =>
        let v := eval vm_compute in (Libc.digit_in 10 c) in
        change (Libc.digit_in 10 c) with v
    end;
    cbv iota beta; rewrite fst_digits_step;
    match goal with
    | |- fst (Libc.digits 10 ?a _) = Z.pos (Pos.of_uint_acc _ ?b) =>
        replace a with (Z.pos b) by lia
    end;
    apply IHd.
Qed.

Lemma to_uint_no_leading_zero (p : positive) (l : Decimal.uint) :
  Pos.to_uint p <> Decimal.D0 l.
Proof.
  intros E.
  pose proof (Unsigned.to_of (Pos.to_uint p)) as H.
  rewrite Unsigned.of_to in H. cbn [N.to_uint] in H.
  rewrite E in H. unfold Decimal.unorm in H.
  rewrite nzhead_D0 in H.
  destruct (Decimal.nzhead l) eqn:En; try discriminate H.
  - injection H as H. subst l. now apply (Unsigned.to_uint_nonzero p).
  - now apply (nzhead_nonzero l u).
Qed.

Lemma subject_decimal (z : ascii) (t : string) :
  Ascii.eqb z "0" = false ->
  Libc.subject 0 (String z t) = (10, String z t).
Proof.
  intros Hz. unfold Libc.subject.
  destruct t as [|x [|h r]]; rewrite Hz; reflexivity.
Qed.

(** The kernel prints an event identity as a decimal number and a line
    feed; [strtol] with base 0 returns that number. *)
Lemma strtol_fmt_d (n : Z) (rest : string) :
  0 <= n <= LONG_MAX ->
  Libc.strtol_conv (Str.fmt_d n ++ nl ++ rest) 0 = (n, true).
Proof.
  intros Hn. destruct n as [|p|p]; [destruct rest; reflexivity| |lia].
  unfold Str.fmt_d. cbn [Z.to_int NilZero.string_of_int].
  pose proof (Unsigned.to_uint_nonnil p) as Hnil.
  pose proof (to_uint_no_leading_zero p) as Hz.
  pose proof (Unsigned.of_to p) as Hof.
  destruct (Pos.to_uint p) as [|l|l|l|l|l|l|l|l|l|l] eqn:E;
    [congruence | exfalso; exact (Hz l eq_refl) |..].
  all: cbn [NilZero.string_of_uint NilEmpty.string_of_uint append].
  all: unfold Libc.strtol_conv; cbn [Libc.skip_space].
  all: match goal with
       | |- context [Libc.isspace ?c] => change (Libc.isspace c) with false
       end; cbv iota.
  all: repeat match goal with
         | |- context [Ascii.eqb ?a ?b] =>
             let v := eval vm_compute in (Ascii.eqb a b) in
             change (Ascii.eqb a b) with v
         end; cbv iota.
  all: rewrite subject_decimal by reflexivity; cbn [Libc.digits].
  all: match goal with
       | |- context [Libc.digit_in 10 ?c] =>
           let v := eval vm_compute in (Libc.digit_in 10 c) in
           change (Libc.digit_in 10 c) with v
       end; cbv iota beta.
  all: match goal with
       | |- context [Libc.digits 10 ?a ?t] =>
           pose proof (digits_of_uint l (Z.to_pos a) rest) as Hd;
           change (Z.pos (Z.to_pos a)) with a in Hd;
           destruct (Libc.digits 10 a t) as [v k]
       end.
  all: cbn [fst] in Hd; cbn [Pos.of_uint] in Hof.
  all: injection Hof as Hof; subst v.
  all: simpl (Z.to_pos _); rewrite Hof.
  all: unfold Libc.clamp_long.
  all: destruct (Z.ltb_spec (Z.pos p) LONG_MIN) as [Hlo|_];
    [unfold LONG_MIN in Hlo; lia|].
  all: destruct (Z.ltb_spec LONG_MAX (Z.pos p)) as [Hhi|_]; [lia|].
  all: reflexivity.
Qed.

(** ** The alias, the control line and the event directory *)

(** The alias buffer of 128 characters never cuts the alias. *)
Lemma mk_event_alias_exact (pid : Z) :
  in_int pid ->
  mk_event_alias ev_name pid = ev_name ++ "_bcc_" ++ Str.fmt_d pid.
Proof.
  intros H. unfold mk_event_alias. apply snprintf_fits.
  pose proof (fmt_d_length pid H).
  rewrite !length_append. simpl. lia.
Qed.

Lemma mk_event_alias_length (pid : Z) :
  in_int pid -> (String.length (mk_event_alias ev_name pid) <= 51)%nat.
Proof.
  intros H. rewrite mk_event_alias_exact by exact H.
  pose proof (fmt_d_length pid H).
  rewrite !length_append. simpl. lia.
Qed.

Lemma mk_control_line_exact (attach_type pid : Z) :
  in_int pid ->
  mk_control_line attach_type event_type (mk_event_alias ev_name pid) fn_name
  = String (kind_char attach_type)
      (":" ++ "kprobes" ++ "/" ++ mk_event_alias ev_name pid ++ " " ++ fn_name).
Proof.
  intros H. unfold mk_control_line.
  pose proof (mk_event_alias_length pid H).
  remember (mk_event_alias ev_name pid) as a.
  rewrite snprintf_fits; [reflexivity|].
  simpl. rewrite !length_append. simpl. lia.
Qed.

Lemma mk_event_path_exact (pid : Z) :
  in_int pid ->
  mk_event_path event_type (mk_event_alias ev_name pid)
  = "/sys/kernel/debug/tracing/events/" ++ "kprobes" ++ "/"
    ++ mk_event_alias ev_name pid.
Proof.
  intros H. unfold mk_event_path.
  pose proof (mk_event_alias_length pid H).
  remember (mk_event_alias ev_name pid) as a.
  rewrite snprintf_fits; [reflexivity|].
  simpl. lia.
Qed.

Lemma id_path_exact (pid : Z) :
  in_int pid ->
  Str.snprintf (Z.to_nat PATH_MAX)
    (mk_event_path event_type (mk_event_alias ev_name pid) ++ "/id")
  = mk_event_path event_type (mk_event_alias ev_name pid) ++ "/id".
Proof.
  intros H. apply snprintf_fits.
  rewrite mk_event_path_exact by exact H.
  pose proof (mk_event_alias_length pid H).
  remember (mk_event_alias ev_name pid) as a.
  rewrite ?length_append. simpl. rewrite ?length_append.
  change (Z.to_nat PATH_MAX) with 4096%nat. simpl. lia.
Qed.

Lemma distinct_pids_distinct_aliases (pid1 pid2 : Z) :
  in_int pid1 -> in_int pid2 -> pid1 <> pid2 ->
  mk_event_alias ev_name pid1 <> mk_event_alias ev_name pid2.
Proof.
  intros H1 H2 Hne.
  rewrite (mk_event_alias_exact pid1 H1), (mk_event_alias_exact pid2 H2).
  intros E.
  apply (append_inj_l ev_name) in E. apply (append_inj_l "_bcc_") in E.
  apply Hne, fmt_d_inj, E.
Qed.

Lemma distinct_pids_distinct_lines (pid1 pid2 : Z) :
  in_int pid1 -> in_int pid2 -> pid1 <> pid2 ->
  mk_control_line BPF_PROBE_ENTRY event_type
    (mk_event_alias ev_name pid1) fn_name
  <> mk_control_line BPF_PROBE_ENTRY event_type
       (mk_event_alias ev_name pid2) fn_name.
Proof.
  intros H1 H2 Hne.
  pose proof (distinct_pids_distinct_aliases pid1 pid2 H1 H2 Hne) as Ha.
  rewrite (mk_control_line_exact _ pid1 H1), (mk_control_line_exact _ pid2 H2).
  revert Ha. generalize (mk_event_alias ev_name pid1) as a1.
  generalize (mk_event_alias ev_name pid2) as a2. intros a2 a1 Ha E.
  injection E as E.
  apply append_inj_r in E. contradiction.
Qed.

Lemma distinct_pids_distinct_paths (pid1 pid2 : Z) :
  in_int pid1 -> in_int pid2 -> pid1 <> pid2 ->
  mk_event_path event_type (mk_event_alias ev_name pid1)
  <> mk_event_path event_type (mk_event_alias ev_name pid2).
Proof.
  intros H1 H2 Hne.
  pose proof (distinct_pids_distinct_aliases pid1 pid2 H1 H2 Hne) as Ha.
  rewrite (mk_event_path_exact pid1 H1), (mk_event_path_exact pid2 H2).
  revert Ha. generalize (mk_event_alias ev_name pid1) as a1.
  generalize (mk_event_alias ev_name pid2) as a2. intros a2 a1 Ha E.
  apply (append_inj_l "/sys/kernel/debug/tracing/events/") in E.
  apply (append_inj_l "kprobes") in E. apply (append_inj_l "/") in E.
  contradiction.
Qed.


(** ** Running the functions symbolically *)

Ltac exec :=
  cbv beta iota zeta delta
    [attachTracingEvent attachKprobe main waitForSigInt bpf_prog_load
     sys_bpf sigaddset sigemptyset set_errno bind sys close perror eprint
     get_errno ret value events final init fst snd app];
  cbn [calls errno bpf_log_buf r_ret r_errno r_data r_int].

(** Splits on the innermost condition the goal is waiting for. *)
Ltac branch :=
  match goal with
  | |- context [if ?c then _ else _] =>
      lazymatch c with
      | context [if _ then _ else _] => fail
      | _ => destruct c eqn:?
      end
  end.

Ltac run := exec; repeat (branch; exec).

(** Turns the recorded outcomes of the comparisons into (in)equalities. *)
Ltac outcomes :=
  repeat match goal with
    | H : (_ || _) = false |- _ => apply orb_false_iff in H; destruct H
    | H : (_ || _) = true |- _ => apply orb_true_iff in H
    | H : (_ <? _) = true |- _ => apply Z.ltb_lt in H
    | H : (_ <? _) = false |- _ => apply Z.ltb_ge in H
    | H : (_ <=? _) = true |- _ => apply Z.leb_le in H
    | H : (_ <=? _) = false |- _ => apply Z.leb_gt in H
    | H : (_ >=? _) = true |- _ => rewrite Z.geb_leb in H
    | H : (_ >=? _) = false |- _ => rewrite Z.geb_leb in H
    | H : (_ =? _) = true |- _ => apply Z.eqb_eq in H
    | H : (_ =? _) = false |- _ => apply Z.eqb_neq in H
    end.

Lemma nonneg_leb (z : Z) : 0 <= z -> (0 <=? z) = true.
Proof. intros H. now apply Z.leb_le. Qed.

Lemma neg_leb (z : Z) : z < 0 -> (0 <=? z) = false.
Proof. intros H. now apply Z.leb_gt. Qed.

(** ** The load request *)

(** C6: whatever the stack held, the request [bpf_prog_load] submits has
    every byte cleared except the members the function assigns, because
    [memset] runs on the record before the first assignment; the
    kernel-version member carries [LINUX_VERSION_CODE] for every program
    type, so in particular for a kprobe program. *)
Theorem bpf_prog_load_request_zeroed (P : Platform) (ty : bpf_prog_type)
    (insns_p insn_count license_p : Z) (s : State) :
  let a := bpf_prog_load_attr P ty insns_p insn_count license_p in
  load_requests (events (bpf_prog_load P ty insns_p insn_count license_p s)) = [a]
  /\ List.length (events (bpf_prog_load P ty insns_p insn_count license_p s)) = 1%nat
  /\ a = set_kern_version (u32 (LINUX_VERSION_CODE P))
           (set_log_level 1
              (set_log_size (u32 LOG_BUF_SIZE)
                 (set_log_buf (ptr_to_u64 (addr_bpf_log_buf P))
                    (set_license (ptr_to_u64 license_p)
                       (set_insn_cnt (u32 insn_count)
                          (set_insns (ptr_to_u64 insns_p)
                             (set_prog_type (u32 (bpf_prog_type_code ty))
                                (memset_bpf_attr (stack_attr P)))))))))
  /\ memset_bpf_attr (stack_attr P)
     = {| prog_type := 0; insn_cnt := 0; insns := 0; license := 0;
          log_level := 0; log_size := 0; log_buf := 0; kern_version := 0;
          attr_rest := List.repeat 0 (List.length (attr_rest (stack_attr P))) |}
  /\ a = {| prog_type := u32 (bpf_prog_type_code ty);
            insn_cnt := u32 insn_count;
            insns := ptr_to_u64 insns_p;
            license := ptr_to_u64 license_p;
            log_level := 1;
            log_size := u32 LOG_BUF_SIZE;
            log_buf := ptr_to_u64 (addr_bpf_log_buf P);
            kern_version := u32 (LINUX_VERSION_CODE P);
            attr_rest := List.repeat 0 (List.length (attr_rest (stack_attr P))) |}
  /\ kern_version
       (bpf_prog_load_attr P BPF_PROG_TYPE_KPROBE insns_p insn_count license_p)
     = u32 (LINUX_VERSION_CODE P).
Proof.
  assert (Hrep : forall l : list Z,
             List.map (fun _ => 0) l = List.repeat 0 (List.length l)).
  { induction l as [|x l IH]; simpl; [reflexivity|now rewrite IH]. }
  cbv zeta.
  split; [reflexivity|]. split; [reflexivity|]. split; [reflexivity|].
  split; [unfold memset_bpf_attr; now rewrite Hrep|].
  split.
  - cbv beta iota zeta delta
      [bpf_prog_load_attr set_kern_version set_log_level set_log_size
       set_log_buf set_license set_insn_cnt set_insns set_prog_type
       memset_bpf_attr prog_type insn_cnt insns license log_level log_size
       log_buf kern_version attr_rest].
    now rewrite Hrep.
  - cbv beta iota zeta delta
      [bpf_prog_load_attr set_kern_version kern_version].
    reflexivity.
Qed.

(** ** The sampling-event request and the two control operations *)

(** C7: once [perf_event_open] has returned a descriptor,
    [attachTracingEvent] issues [PERF_EVENT_IOC_SET_BPF] with the program
    descriptor on it and, only when that succeeded,
    [PERF_EVENT_IOC_ENABLE]; no other [ioctl] is made.  The call returns
    0 exactly when both succeeded and -1 when either failed. *)
Theorem attach_binds_then_enables (P : Platform) (progFd : Z)
    (event_path : string) (pfd0 : Z) (s : State) :
  let o := attachTracingEvent P progFd event_path pfd0 s in
  let rc := fst (value o) in
  let fd := snd (value o) in
  (perf_created (events o) = None /\ ioctl_log (events o) = [] /\ rc = -1)
  \/ (perf_created (events o) = Some fd /\
      exists b, b < 0 /\ rc = -1 /\
        ioctl_log (events o) = [(fd, PERF_EVENT_IOC_SET_BPF, progFd, b)])
  \/ (perf_created (events o) = Some fd /\
      exists b e, 0 <= b /\ e < 0 /\ rc = -1 /\
        ioctl_log (events o)
        = [(fd, PERF_EVENT_IOC_SET_BPF, progFd, b);
           (fd, PERF_EVENT_IOC_ENABLE, 0, e)])
  \/ (perf_created (events o) = Some fd /\
      exists b e, 0 <= b /\ 0 <= e /\ rc = 0 /\
        ioctl_log (events o)
        = [(fd, PERF_EVENT_IOC_SET_BPF, progFd, b);
           (fd, PERF_EVENT_IOC_ENABLE, 0, e)]).
Proof.
  cbv zeta. run; outcomes; unfold perf_created, ioctl_log; cbn [pick];
    rewrite ?neg_leb, ?nonneg_leb by assumption;
    first
      [ left; solve [auto]
      | right; left; split; [reflexivity|]; eexists; solve [eauto]
      | right; right; left; split; [reflexivity|]; do 2 eexists; solve [eauto]
      | right; right; right; split; [reflexivity|]; do 2 eexists; solve [eauto] ].
Qed.

(** C3 (as stated, refuted): in a run where every stage succeeds, the
    one sampling-event request names CPU 0, so it is not a request for
    "no particular CPU". *)
Lemma request_names_cpu_0 :
  ~ (forall a pid cpu g f,
        In (a, pid, cpu, g, f) (perf_requests (events (main (P_run SIGINT) init))) ->
        no_particular_process pid = true /\ no_particular_cpu cpu = true).
Proof.
  intros H.
  destruct (H (tracing_event_attr ("1234" ++ nl)) (-1) 0 (-1) PERF_FLAG_FD_CLOEXEC)
    as [_ Hc].
  - vm_compute. left. reflexivity.
  - discriminate Hc.
Qed.

(** C3 (amended): [attachTracingEvent] makes at most one sampling-event
    request, and that request has type [PERF_TYPE_TRACEPOINT], the number
    parsed from the [id] file as its [config], sample period 1, wakeup
    threshold 1 and every other member zero; it is made for every process
    ([pid = -1]) on CPU 0 ([cpu = 0]), without a group ([group_fd = -1]),
    with the flag [PERF_FLAG_FD_CLOEXEC]. *)
Theorem tracing_event_request (P : Platform) (progFd : Z)
    (event_path : string) (pfd0 : Z) (s : State) :
  let o := attachTracingEvent P progFd event_path pfd0 s in
  let text :=
    id_text (Str.snprintf (Z.to_nat PATH_MAX) (event_path ++ "/id"))
      (r_ret (answers P (S (calls s)))) (r_data (answers P (S (calls s)))) in
  (perf_requests (events o) = []
   \/ perf_requests (events o)
      = [(tracing_event_attr text, -1, 0, -1, PERF_FLAG_FD_CLOEXEC)])
  /\ tracing_event_attr text
     = {| type := perf_type_code PERF_TYPE_TRACEPOINT;
          size := 0;
          config := u64 (Libc.strtol text 0);
          sample_period := 1;
          sample_type := 0;
          read_format := 0;
          flag_bits := 0;
          wakeup_events := 1 |}
  /\ no_particular_process (-1) = true
  /\ no_particular_cpu 0 = false
  /\ Z.testbit PERF_FLAG_FD_CLOEXEC 3 = true.
Proof.
  cbv zeta. split; [|repeat split].
  run; unfold perf_requests; cbn [pick];
    first [ left; reflexivity | right; reflexivity ].
Qed.

(** ** Resolving the event identity *)

(** C8 (as stated, refuted): the [id] file holds ["garbage"], which
    [strtol] cannot convert, yet the resolution does not fail: the
    sampling event is requested with identity 0 and the run ends with
    status 0. *)
Lemma unparsable_id_is_accepted :
  snd (Libc.strtol_conv ("garbage" ++ nl) 0) = false
  /\ perf_requests (events (main P_garbage_id init))
     = [(tracing_event_attr ("garbage" ++ nl), -1, 0, -1, PERF_FLAG_FD_CLOEXEC)]
  /\ config (tracing_event_attr ("garbage" ++ nl)) = 0
  /\ value (main P_garbage_id init) = 0.
Proof.
  repeat split; vm_compute; reflexivity.
Qed.

(** C8 (amended): the resolution fails, that is [attachTracingEvent]
    returns -1 without requesting a sampling event, exactly when the [id]
    file cannot be opened, the read returns no byte or an error, or it
    returns [PATH_MAX] bytes or more.  Otherwise the text read is handed
    to [strtol] with base 0 and the result is the identity, whether or
    not the text held a number: decimal and [0x] hexadecimal text
    convert to their value, a leading [0] selects octal, and text
    without digits converts to 0. *)
Theorem resolution_fails_iff (P : Platform) (progFd : Z)
    (event_path : string) (pfd0 : Z) (s : State) :
  let o := attachTracingEvent P progFd event_path pfd0 s in
  let opened := r_ret (answers P (calls s)) in
  let bytes := r_ret (answers P (S (calls s))) in
  let text :=
    id_text (Str.snprintf (Z.to_nat PATH_MAX) (event_path ++ "/id"))
      bytes (r_data (answers P (S (calls s)))) in
  LONG_MIN <= bytes <= LONG_MAX ->
  (perf_requests (events o) = []
   <-> opened < 0 \/ bytes <= 0 \/ PATH_MAX <= bytes)
  /\ (perf_requests (events o) = [] -> fst (value o) = -1)
  /\ (perf_requests (events o) = []
      \/ exists a, perf_requests (events o) = [(a, -1, 0, -1, PERF_FLAG_FD_CLOEXEC)]
                   /\ config a = u64 (Libc.strtol text 0))
  /\ (forall n rest, 0 <= n <= LONG_MAX ->
        Libc.strtol_conv (Str.fmt_d n ++ nl ++ rest) 0 = (n, true))
  /\ Libc.strtol_conv ("0x4d2" ++ nl) 0 = (1234, true)
  /\ Libc.strtol_conv ("0755" ++ nl) 0 = (493, true)
  /\ Libc.strtol_conv ("garbage" ++ nl) 0 = (0, false).
Proof.
  cbv zeta. intros Hb.
  assert (Hu : 0 < r_ret (answers P (S (calls s))) ->
               u64 (r_ret (answers P (S (calls s))))
               = r_ret (answers P (S (calls s)))).
  { intros Hp. unfold u64. apply Z.mod_small.
    unfold LONG_MAX in Hb. lia. }
  split; [|split; [|split; [|split; [exact strtol_fmt_d|repeat split]]]].
  - run; outcomes; unfold PATH_MAX in *; cbn [perf_requests pick];
      try (rewrite Hu in * by lia);
      (split; [intros E; try discriminate E; lia | intros E; try reflexivity; lia]).
  - run; cbn [perf_requests pick]; intros E; try reflexivity; discriminate E.
  - run; cbn [perf_requests pick]; auto;
      right; eexists; (split; [reflexivity|]); reflexivity.
Qed.

(** ** Waiting for the signal *)

(** [waitForSigInt] on every platform: the result, the one wait and
    the line logged, as decided by what [sigprocmask] and [sigwait]
    return. *)
Lemma wait_returns_after_first_signal (P : Platform) (s : State) :
  let o := waitForSigInt P s in
  let masked := answers P (calls s) in
  let waited := answers P (S (calls s)) in
  value o = (if (r_ret masked <? 0) || (r_ret waited <? 0) then 1 else 0)
  /\ sigwaits (events o) = (if r_ret masked <? 0 then [] else [[SIGINT]])
  /\ stderr_text (events o)
     = (if r_ret masked <? 0 then
          "Error calling sigprocmask(): " ++ strerror P (r_errno masked) ++ nl
        else if r_ret waited <? 0 then
          "Error calling sigwait(): " ++ strerror P (r_errno waited) ++ nl
        else if r_int waited =? SIGINT then
          "SIGINT received!" ++ nl
        else
          "Unexpected signal received: " ++ Str.fmt_d (r_int waited) ++ nl).
Proof.
  cbv zeta. unfold waitForSigInt, sigaddset, sigemptyset.
  change ((1 <=? SIGINT) && (SIGINT <=? 64)) with true.
  exec. change (0 <? 0) with false. cbv iota.
  run; unfold sigwaits, stderr_text; cbn [pick String.concat orb];
    repeat split; try reflexivity; try discriminate.
Qed.

(** ** Registering the probe *)

Lemma singleton_inj {A : Type} (a b : A) : [a] = [b] -> a = b.
Proof. intros H. now injection H. Qed.

(** What [attachKprobe] writes: nothing when the control file cannot be
    opened, otherwise the one control line of this process. *)
Lemma attachKprobe_writes (P : Platform) (progFd : Z) (s : State) :
  (r_ret (answers P (calls s)) < 0
   /\ writes (events (attachKprobe P progFd s)) = [])
  \/ (0 <= r_ret (answers P (calls s))
      /\ writes (events (attachKprobe P progFd s))
         = [mk_control_line BPF_PROBE_ENTRY event_type
              (mk_event_alias ev_name (getpid P)) fn_name]).
Proof.
  run; outcomes; unfold writes; cbn [pick];
    first [ left; split; [assumption|reflexivity]
          | right; split; [assumption|reflexivity] ].
Qed.

(** C9: two registrations of the same probe made by processes with
    distinct identities write distinct control lines, because they
    derive distinct aliases, and hence register distinct probe paths;
    the alias is the fixed prefix made of the event name and [_bcc_],
    followed by the decimal process identity. *)
Theorem distinct_pids_distinct_probes (P1 P2 : Platform) (fd1 fd2 : Z)
    (s1 s2 : State) :
  in_int (getpid P1) -> in_int (getpid P2) -> getpid P1 <> getpid P2 ->
  0 <= r_ret (answers P1 (calls s1)) -> 0 <= r_ret (answers P2 (calls s2)) ->
  writes (events (attachKprobe P1 fd1 s1))
  <> writes (events (attachKprobe P2 fd2 s2))
  /\ mk_event_alias ev_name (getpid P1)
     = ev_name ++ "_bcc_" ++ Str.fmt_d (getpid P1)
  /\ mk_event_alias ev_name (getpid P1) <> mk_event_alias ev_name (getpid P2)
  /\ mk_event_path event_type (mk_event_alias ev_name (getpid P1))
     <> mk_event_path event_type (mk_event_alias ev_name (getpid P2)).
Proof.
  intros H1 H2 Hne Ho1 Ho2.
  split; [|split; [|split]].
  - destruct (attachKprobe_writes P1 fd1 s1) as [[Hn _]|[_ ->]]; [lia|].
    destruct (attachKprobe_writes P2 fd2 s2) as [[Hn _]|[_ ->]]; [lia|].
    intros E.
    exact (distinct_pids_distinct_lines _ _ H1 H2 Hne (singleton_inj _ _ E)).
  - now apply mk_event_alias_exact.
  - now apply distinct_pids_distinct_aliases.
  - now apply distinct_pids_distinct_paths.
Qed.

(** C5: [attachKprobe] appends at most one line to the control file, and
    exactly one once the file is open.  The line is the kind character,
    a colon, the group [kprobes], a slash, the alias, a space and the
    target symbol; the kind character is [p] for an entry probe and [r]
    for a return probe.  The event directory handed on, whose [id] file
    is opened next, is the fixed events root followed by the group and
    the alias. *)
Theorem kprobe_registration_line (P : Platform) (progFd : Z) (s : State) :
  in_int (getpid P) ->
  let o := attachKprobe P progFd s in
  let alias := ev_name ++ "_bcc_" ++ Str.fmt_d (getpid P) in
  let line := fun k : ascii =>
    String k (":" ++ "kprobes" ++ "/" ++ alias ++ " " ++ fn_name) in
  let dir := "/sys/kernel/debug/tracing/events/" ++ "kprobes" ++ "/" ++ alias in
  ((r_ret (answers P (calls s)) < 0 /\ writes (events o) = [])
   \/ (0 <= r_ret (answers P (calls s)) /\ writes (events o) = [line "p"%char]))
  /\ (opens (events o) = [kprobe_events]
      \/ opens (events o) = [kprobe_events; dir ++ "/id"])
  /\ (forall attach_type,
         mk_control_line attach_type event_type
           (mk_event_alias ev_name (getpid P)) fn_name
         = line (kind_char attach_type))
  /\ kind_char BPF_PROBE_ENTRY = "p"%char
  /\ kind_char BPF_PROBE_RETURN = "r"%char
  /\ mk_event_path event_type (mk_event_alias ev_name (getpid P)) = dir.
Proof.
  intros Hpid. cbv zeta.
  pose proof (mk_event_alias_exact (getpid P) Hpid) as Ha.
  pose proof (mk_event_path_exact (getpid P) Hpid) as Hp.
  pose proof (id_path_exact (getpid P) Hpid) as Hi.
  assert (Hl : forall k, mk_control_line k event_type
                           (mk_event_alias ev_name (getpid P)) fn_name
                         = String (kind_char k)
                             (":" ++ "kprobes" ++ "/"
                              ++ (ev_name ++ "_bcc_" ++ Str.fmt_d (getpid P))
                              ++ " " ++ fn_name)).
  { intros k. rewrite (mk_control_line_exact k _ Hpid). now rewrite Ha. }
  split; [|split; [|split; [exact Hl|split; [reflexivity|split; [reflexivity|]]]]].
  - run; outcomes; unfold writes; cbn [pick]; rewrite ?Hl;
      first [ left; split; [assumption|reflexivity]
            | right; split; [assumption|reflexivity] ].
  - run; unfold opens; cbn [pick]; rewrite ?Hi, ?Hp, ?Ha;
      first [ left; reflexivity | right; reflexivity ].
  - rewrite Hp, Ha. reflexivity.
Qed.

(** ** The whole run *)

Lemma bind_run {A B : Type} (m : M A) (k : A -> M B) (s : State) :
  bind m k s
  = (value (k (value (m s)) (final (m s))),
     final (k (value (m s)) (final (m s))),
     (events (m s) ++ events (k (value (m s)) (final (m s))))%list).
Proof.
  unfold bind, value, final, events.
  destruct (m s) as [[a s1] t1]. cbn.
  destruct (k a s1) as [[b s2] t2]. reflexivity.
Qed.

(** C10: [main] gives up after the load only when the value returned is
    exactly -1.  For every other value, negative ones included, the run
    continues with [attachKprobe] called on that value: the control file
    is the first file opened, and every [PERF_EVENT_IOC_SET_BPF] carries
    the value as the program descriptor. *)
Theorem load_failure_is_exactly_minus_one (P : Platform) :
  r_ret (answers P 0) <> -1 ->
  let o := main P init in
  let loaded := bpf_prog_load P BPF_PROG_TYPE_KPROBE (addr_prog P)
                  (Z.of_nat (List.length prog)) (addr_license P) init in
  let progFd := r_ret (answers P 0) in
  value loaded = progFd
  /\ (exists tail,
         events o
         = (events loaded
            ++ events (attachKprobe P progFd (final loaded)) ++ tail)%list)
  /\ hd_error (opens (events o)) = Some kprobe_events
  /\ (forall fd arg b,
         In (fd, PERF_EVENT_IOC_SET_BPF, arg, b) (ioctl_log (events o)) ->
         arg = progFd).
Proof.
  intros Hne. cbv zeta.
  apply Z.eqb_neq in Hne.
  split; [reflexivity|]. split; [|split].
  - unfold main. rewrite bind_run.
    change (value (bpf_prog_load P BPF_PROG_TYPE_KPROBE (addr_prog P)
                     (Z.of_nat (List.length prog)) (addr_license P) init))
      with (r_ret (answers P 0)).
    rewrite Hne. rewrite bind_run. cbn [events snd].
    eexists. reflexivity.
  - run; try congruence; reflexivity.
  - run; try congruence; unfold ioctl_log; cbn [pick In];
      intros fd arg b Hin; intuition congruence.
Qed.

(** C2 (as stated, refuted): the verifier rejects the program and leaves
    its explanation in [bpf_log_buf]; [main] exits with status 1 but the
    only text on the error stream is the [perror] line, which does not
    contain the explanation. *)
Lemma verifier_text_not_printed :
  r_ret (answers P_rejected 0) = -1
  /\ bpf_log_buf (final (main P_rejected init)) = verifier_text
  /\ stderr_text (events (main P_rejected init))
     = "Error calling bpf_prog_load(): Invalid argument" ++ nl
  /\ Str.contains verifier_text (stderr_text (events (main P_rejected init)))
     = false
  /\ value (main P_rejected init) = 1.
Proof.
  repeat split; vm_compute; reflexivity.
Qed.

(** C2 (amended): when the load returns -1, [main] makes no further
    system call, writes the single line [Error calling bpf_prog_load():]
    followed by the [strerror] text of [errno] to the error stream, and
    exits with status 1.  The verifier's text, cut to the capacity of
    the scratch buffer less the terminator, stays in the global
    [bpf_log_buf]; the program does not print it. *)
Theorem load_failure_report (P : Platform) :
  r_ret (answers P 0) = -1 ->
  let o := main P init in
  let a := bpf_prog_load_attr P BPF_PROG_TYPE_KPROBE (addr_prog P)
             (Z.of_nat (List.length prog)) (addr_license P) in
  value o = 1
  /\ events o
     = [ Sys (c_bpf BPF_PROG_LOAD a (sizeof_bpf_attr a)) (answers P 0);
         Stderr ("Error calling bpf_prog_load()" ++ ": "
                 ++ strerror P (r_errno (answers P 0)) ++ nl) ]
  /\ bpf_log_buf (final o)
     = Str.take (Z.to_nat (LOG_BUF_SIZE - 1)) (r_data (answers P 0)).
Proof.
  intros Hfail. cbv zeta. exec. rewrite Hfail.
  change (-1 =? -1) with true. change (-1 <? 0) with true. cbv iota.
  exec. split; [reflexivity|]. split; [reflexivity|].
  cbv beta iota zeta delta
    [bpf_prog_load_attr set_kern_version set_log_level set_log_size
     set_log_buf set_license set_insn_cnt set_insns set_prog_type
     memset_bpf_attr log_level log_size log_buf].
  change (0 <? 1) with true. rewrite Z.eqb_refl. reflexivity.
Qed.

(** ** Descriptors acquired and released *)

(** X1: when the load returned -1 or a descriptor and no [ioctl]
    failed, every descriptor created during the run is released, last
    acquired first, and releases and creations are equally many. *)
Lemma main_balanced_unless_control_fails (P : Platform) :
  r_ret (answers P 0) = -1 \/ 0 <= r_ret (answers P 0) ->
  (forall fd rq a b,
      In (fd, rq, a, b) (ioctl_log (events (main P init))) -> 0 <= b) ->
  balanced (events (main P init)) = true
  /\ List.length (releases (events (main P init)))
     = List.length (acquisitions (events (main P init))).
Proof.
  intros Hload. run; outcomes; intros Hio.
  all: try (exfalso; destruct Hload as [Hload|Hload]; lia).
  all: unfold ioctl_log in Hio; cbn [pick In] in Hio.
  all: try (exfalso;
            first [ pose proof (Hio _ _ _ _ (or_introl eq_refl)); lia
                  | pose proof (Hio _ _ _ _ (or_intror (or_introl eq_refl)));
                    lia ]).
  all: unfold balanced, acquisitions, releases;
    cbn [replay pick acquired released];
    repeat (rewrite ?neg_leb, ?nonneg_leb, ?Z.eqb_refl by lia;
            cbn [replay pick acquired released List.length]).
  all: split; reflexivity.
Qed.

(** C1 (the code at the failing input): [PERF_EVENT_IOC_SET_BPF] is
    refused after [perf_event_open] returned descriptor 5.  [main] exits
    with status 1 having created four descriptors and released three:
    the sampling-event descriptor 5 is never closed.  In the run where
    every stage succeeds the trace is balanced. *)
Theorem sampling_event_leaks_when_bind_fails :
  ioctl_log (events (main P_bind_refused init))
  = [(5, PERF_EVENT_IOC_SET_BPF, 3, -1)]
  /\ acquisitions (events (main P_bind_refused init)) = [3; 4; 4; 5]
  /\ releases (events (main P_bind_refused init)) = [4; 4; 3]
  /\ ~ In 5 (releases (events (main P_bind_refused init)))
  /\ balanced (events (main P_bind_refused init)) = false
  /\ value (main P_bind_refused init) = 1
  /\ acquisitions (events (main (P_run SIGINT) init)) = [3; 4; 4; 5]
  /\ releases (events (main (P_run SIGINT) init)) = [4; 4; 5; 3]
  /\ balanced (events (main (P_run SIGINT) init)) = true.
Proof.
  repeat split; try (vm_compute; reflexivity).
  vm_compute. intuition discriminate.
Qed.

(** ** Instances on the concrete platforms *)

Lemma distinct_pids_distinct_probes_witness :
  getpid (P_run SIGINT) <> getpid P_other
  /\ writes (events (attachKprobe (P_run SIGINT) 3 (after 1)))
     <> writes (events (attachKprobe P_other 3 (after 1)))
  /\ mk_event_path event_type (mk_event_alias ev_name (getpid (P_run SIGINT)))
     <> mk_event_path event_type (mk_event_alias ev_name (getpid P_other)).
Proof.
  assert (H1 : in_int (getpid (P_run SIGINT))).
  { unfold in_int, INT_MIN, INT_MAX. simpl. lia. }
  assert (H2 : in_int (getpid P_other)).
  { unfold in_int, INT_MIN, INT_MAX. simpl. lia. }
  assert (Hne : getpid (P_run SIGINT) <> getpid P_other).
  { simpl. lia. }
  assert (Ho1 : 0 <= r_ret (answers (P_run SIGINT) (calls (after 1)))).
  { simpl. lia. }
  assert (Ho2 : 0 <= r_ret (answers P_other (calls (after 1)))).
  { simpl. lia. }
  destruct (distinct_pids_distinct_probes (P_run SIGINT) P_other 3 3
              (after 1) (after 1) H1 H2 Hne Ho1 Ho2)
    as [Hw [_ [_ Hp]]].
  exact (conj Hne (conj Hw Hp)).
Defined.

Lemma kprobe_registration_line_witness :
  in_int (getpid (P_run SIGINT))
  /\ writes (events (attachKprobe (P_run SIGINT) 3 (after 1)))
     = ["p:kprobes/p_do_sys_open_bcc_4711 do_sys_open"]
  /\ mk_event_path event_type (mk_event_alias ev_name (getpid (P_run SIGINT)))
     = "/sys/kernel/debug/tracing/events/kprobes/p_do_sys_open_bcc_4711".
Proof.
  assert (H : in_int (getpid (P_run SIGINT))).
  { unfold in_int, INT_MIN, INT_MAX. simpl. lia. }
  destruct (kprobe_registration_line (P_run SIGINT) 3 (after 1) H)
    as [[[Hneg _]|[_ Hw]] [_ [_ [_ [_ Hp]]]]].
  - vm_compute in Hneg. discriminate Hneg.
  - exact (conj H (conj Hw Hp)).
Defined.

Lemma resolution_fails_iff_witness :
  LONG_MIN <= r_ret (answers (P_run SIGINT) 5) <= LONG_MAX
  /\ (perf_requests
        (events (attachTracingEvent (P_run SIGINT) 3
                   "/sys/kernel/debug/tracing/events/kprobes/p_do_sys_open_bcc_4711"
                   (-1) (after 4))) = []
      <-> r_ret (answers (P_run SIGINT) 4) < 0
          \/ r_ret (answers (P_run SIGINT) 5) <= 0
          \/ PATH_MAX <= r_ret (answers (P_run SIGINT) 5)).
Proof.
  assert (H : LONG_MIN <= r_ret (answers (P_run SIGINT) 5) <= LONG_MAX).
  { unfold LONG_MIN, LONG_MAX. simpl. lia. }
  split; [exact H|].
  exact (proj1 (resolution_fails_iff (P_run SIGINT) 3
                  "/sys/kernel/debug/tracing/events/kprobes/p_do_sys_open_bcc_4711"
                  (-1) (after 4) H)).
Defined.

Lemma load_failure_is_exactly_minus_one_witness :
  r_ret (answers P_load_minus2 0) = -2
  /\ r_ret (answers P_load_minus2 0) <> -1
  /\ hd_error (opens (events (main P_load_minus2 init))) = Some kprobe_events
  /\ (forall fd arg b,
         In (fd, PERF_EVENT_IOC_SET_BPF, arg, b)
            (ioctl_log (events (main P_load_minus2 init))) ->
         arg = -2).
Proof.
  assert (H : r_ret (answers P_load_minus2 0) <> -1).
  { simpl. lia. }
  destruct (load_failure_is_exactly_minus_one P_load_minus2 H)
    as [_ [_ [Ho Hi]]].
  exact (conj eq_refl (conj H (conj Ho Hi))).
Defined.

Lemma load_failure_report_witness :
  r_ret (answers P_rejected 0) = -1
  /\ value (main P_rejected init) = 1
  /\ bpf_log_buf (final (main P_rejected init))
     = Str.take (Z.to_nat (LOG_BUF_SIZE - 1)) verifier_text.
Proof.
  assert (H : r_ret (answers P_rejected 0) = -1) by reflexivity.
  destruct (load_failure_report P_rejected H) as [Hv [_ Hl]].
  exact (conj H (conj Hv Hl)).
Defined.

(** * Further properties of the code *)

(** Decides the tests [0 <=? z] of the trace readers from what the run
    recorded about [z]. *)
Ltac decide_leb :=
  repeat match goal with
    | H : ?z < 0 |- context [0 <=? ?z] => rewrite (neg_leb z H)
    | H : 0 <= ?z |- context [0 <=? ?z] => rewrite (nonneg_leb z H)
    | H : 0 < ?z |- context [0 <=? ?z] =>
        rewrite (nonneg_leb z (Z.lt_le_incl _ _ H))
    end.

(** ** Files opened and closed by the attach functions *)

(** X6: on every path [attachTracingEvent] and [attachKprobe] close the
    files they opened, the control file and the [id] file, once each and
    in the order they were opened, and they close nothing else: neither
    the program descriptor nor the sampling-event descriptor. *)
Theorem attach_closes_the_files_it_opens (P : Platform) (progFd : Z)
    (event_path : string) (pfd0 : Z) (s : State) :
  releases (events (attachTracingEvent P progFd event_path pfd0 s))
  = opened_files (events (attachTracingEvent P progFd event_path pfd0 s))
  /\ releases (events (attachKprobe P progFd s))
     = opened_files (events (attachKprobe P progFd s)).
Proof.
  split; run; outcomes; unfold releases, released, opened_files;
    cbn [pick]; decide_leb; reflexivity.
Qed.

(** Decides the tests on constants before splitting on those that
    depend on the platform. *)
Ltac settle :=
  repeat first
    [ progress change (-1 <? 0) with true
    | progress change (0 <? 0) with false
    | progress change ((1 <=? SIGINT) && (SIGINT <=? 64)) with true ];
  cbv iota.

Ltac walk := exec; settle; repeat (branch; exec; settle).

(** ** When the attach succeeds *)

(** X2: [attachKprobe] returns a descriptor exactly when all seven
    steps succeed: the control file opens, the line is written, the [id]
    file opens, the read returns between 1 and [PATH_MAX - 1] bytes, the
    sampling event is created, and both [ioctl] calls succeed.  The
    descriptor returned is then the one [perf_event_open] returned; in
    every other case the result is -1. *)
Theorem attachKprobe_succeeds_iff (P : Platform) (progFd : Z) (s : State) :
  let o := attachKprobe P progFd s in
  let ans := fun k : nat => r_ret (answers P (k + calls s)) in
  in_long (ans 4%nat) ->
  (0 <= value o
   <-> 0 <= ans 0%nat /\ 0 <= ans 1%nat /\ 0 <= ans 3%nat
       /\ 0 < ans 4%nat < PATH_MAX
       /\ 0 <= ans 6%nat /\ 0 <= ans 7%nat /\ 0 <= ans 8%nat)
  /\ (0 <= value o -> value o = ans 6%nat)
  /\ (value o < 0 -> value o = -1).
Proof.
  cbv zeta beta. cbn [Nat.add]. unfold in_long, LONG_MIN, LONG_MAX. intros Hb.
  assert (Hu : 0 < r_ret (answers P (S (S (S (S (calls s)))))) ->
               u64 (r_ret (answers P (S (S (S (S (calls s)))))))
               = r_ret (answers P (S (S (S (S (calls s))))))).
  { intros Hp. unfold u64. apply Z.mod_small. lia. }
  run; outcomes; unfold PATH_MAX in *;
    try (rewrite Hu in * by lia);
    (split; [split; [intros; lia | intros; lia] | split; intros; lia]).
Qed.

(** ** When the kernel refuses the registration *)

(** X3: when the write to the control file fails, [attachKprobe]
    reports it, closes the control file and returns -1 without opening
    the [id] file or creating a sampling event.  The message names a
    probe entry that may not exist exactly when [errno] is [ENOENT], and
    carries the [strerror] text otherwise.  The control file is opened
    for appending. *)
Theorem registration_refused (P : Platform) (progFd : Z) (s : State) :
  let o := attachKprobe P progFd s in
  let opened := answers P (calls s) in
  let written := answers P (S (calls s)) in
  let line := mk_control_line BPF_PROBE_ENTRY event_type
                (mk_event_alias ev_name (getpid P)) fn_name in
  0 <= r_ret opened -> r_ret written < 0 ->
  value o = -1
  /\ events o
     = [ Sys (c_open kprobe_events (Z.lor O_WRONLY O_APPEND) 0) opened;
         Sys (c_write (r_ret opened) line (Z.of_nat (String.length line))) written;
         Stderr (if r_errno written =? ENOENT
                 then "cannot attach kprobe, probe entry may not exist" ++ nl
                 else "cannot attach kprobe, " ++ strerror P (r_errno written) ++ nl);
         Sys (c_close (r_ret opened)) (answers P (S (S (calls s)))) ]
  /\ Z.land (Z.lor O_WRONLY O_APPEND) O_APPEND = O_APPEND.
Proof.
  cbv zeta. intros Ho Hw.
  apply Z.ltb_ge in Ho. apply Z.ltb_lt in Hw.
  exec. rewrite Ho. cbv iota. exec. rewrite Hw. cbv iota. exec.
  destruct (r_errno (answers P (S (calls s))) =? ENOENT); exec;
    repeat split.
Qed.

(** ** The exit status *)

(** X4: [main] exits with status 0 or 1, and with 0 only after the
    program was bound to a created sampling event, the event was
    enabled, the process waited for the signal, and the event and the
    program descriptors were closed last, in that order. *)
Theorem main_exit_status (P : Platform) :
  let o := main P init in
  value o = 1
  \/ (value o = 0
      /\ exists fd b e,
           0 <= fd /\ 0 <= b /\ 0 <= e
           /\ ioctl_log (events o)
              = [ (fd, PERF_EVENT_IOC_SET_BPF, r_ret (answers P 0), b);
                  (fd, PERF_EVENT_IOC_ENABLE, 0, e) ]
           /\ sigwaits (events o) = [[SIGINT]]
           /\ exists before,
                releases (events o)
                = (before ++ [fd; r_ret (answers P 0)])%list).
Proof.
  cbv zeta. walk; outcomes;
    first
      [ left; reflexivity
      | right; split; [reflexivity|];
        unfold ioctl_log, sigwaits, releases, released; cbn [pick];
        refine (ex_intro _ _ (ex_intro _ _ (ex_intro _ _
                  (conj _ (conj _ (conj _ (conj eq_refl (conj eq_refl
                     (ex_intro _ [_; _] eq_refl)))))))));
        assumption ].
Qed.

(** ** The identity read from the [id] file *)

Lemma take_append_exact (a b : string) :
  Str.take (String.length a) (a ++ b) = a.
Proof.
  induction a as [|c a IH]; simpl; [now destruct b|now rewrite IH].
Qed.

Lemma fmt_d_length_long (n : Z) :
  0 <= n <= LONG_MAX -> (String.length (Str.fmt_d n) <= 64)%nat.
Proof.
  unfold LONG_MAX, Str.fmt_d. intros H.
  destruct n as [|p|p]; simpl; [lia| |lia].
  pose proof (to_uint_length p) as Hl.
  assert (Hs : (Pos.size_nat p <= 64)%nat).
  { change 64%nat with (Pos.size_nat (2 ^ 63)%positive).
    apply Pos.size_nat_monotone. lia. }
  lia.
Qed.

(** X5: when the [id] file holds a non-negative [long] printed in
    decimal and followed by a line feed, the sampling event is requested
    for exactly that number, as a tracepoint event. *)
Theorem decimal_id_reaches_request (P : Platform) (progFd : Z)
    (event_path : string) (pfd0 : Z) (s : State) (n : Z) :
  let o := attachTracingEvent P progFd event_path pfd0 s in
  let id_file := answers P (S (calls s)) in
  0 <= n <= LONG_MAX ->
  0 <= r_ret (answers P (calls s)) ->
  r_data id_file = Str.fmt_d n ++ nl ->
  r_ret id_file = Z.of_nat (String.length (Str.fmt_d n ++ nl)) ->
  exists a,
    perf_requests (events o) = [(a, -1, 0, -1, PERF_FLAG_FD_CLOEXEC)]
    /\ config a = n
    /\ type a = perf_type_code PERF_TYPE_TRACEPOINT.
Proof.
  cbv zeta. intros Hn Ho Hd Hr.
  pose proof (fmt_d_length_long n Hn) as Hlen.
  assert (Hb : 0 < r_ret (answers P (S (calls s))) < PATH_MAX).
  { rewrite Hr, length_append. unfold PATH_MAX. simpl String.length. lia. }
  assert (Ht : id_text (Str.snprintf (Z.to_nat PATH_MAX) (event_path ++ "/id"))
                 (r_ret (answers P (S (calls s))))
                 (r_data (answers P (S (calls s))))
               = Str.fmt_d n ++ nl).
  { unfold id_text, buf_after_read. rewrite Z.min_l by lia.
    rewrite Hr, Hd, Nat2Z.id.
    rewrite (take_all _ _ (Nat.le_refl _)).
    unfold Str.overlay. apply take_append_exact. }
  assert (Hc : u64 (Libc.strtol (Str.fmt_d n ++ nl) 0) = n).
  { unfold Libc.strtol.
    change (Str.fmt_d n ++ nl) with (Str.fmt_d n ++ nl ++ "").
    rewrite strtol_fmt_d by exact Hn. cbn [fst].
    unfold u64. apply Z.mod_small. unfold LONG_MAX in Hn. lia. }
  assert (Hu : u64 (r_ret (answers P (S (calls s))))
               = r_ret (answers P (S (calls s)))).
  { unfold u64. apply Z.mod_small. unfold PATH_MAX in Hb. lia. }
  apply Z.ltb_ge in Ho.
  exec. rewrite Ho. cbv iota. exec. rewrite Hu.
  replace (r_ret (answers P (S (calls s))) <=? 0) with false
    by (symmetry; apply Z.leb_gt; lia).
  replace (r_ret (answers P (S (calls s))) >=? PATH_MAX) with false
    by (symmetry; rewrite Z.geb_leb; apply Z.leb_gt; lia).
  cbn [orb]. exec. rewrite Ht.
  walk; unfold perf_requests; cbn [pick];
    (eexists; split; [reflexivity|]; split; [exact Hc|reflexivity]).
Qed.

(** ** The leak, in general *)

(** X7: in every run in which the load returned a descriptor and an
    [ioctl] on the sampling event failed, [main] exits with status 1
    having released one descriptor fewer than were created. *)
Theorem control_failure_leaks_one_descriptor (P : Platform) :
  let o := main P init in
  0 <= r_ret (answers P 0) ->
  (exists fd rq a b, In (fd, rq, a, b) (ioctl_log (events o)) /\ b < 0) ->
  value o = 1
  /\ List.length (acquisitions (events o))
     = S (List.length (releases (events o)))
  /\ balanced (events o) = false
  /\ exists fd, perf_created (events o) = Some fd.
Proof.
  cbv zeta. intros Hload.
  walk; outcomes; intros (fd & rq & a & b & Hin & Hb);
    unfold ioctl_log in Hin; cbn [pick In] in Hin;
    try lia;
    try (exfalso; intuition (try congruence);
         repeat match goal with
           | H : (_, _, _, _) = (_, _, _, _) |- _ =>
               injection H as ? ? ? ?; subst
           end; lia).
  all: unfold balanced, acquisitions, releases, perf_created;
    cbn [replay pick acquired released];
    repeat (decide_leb; rewrite ?Z.eqb_refl;
            cbn [replay pick acquired released List.length]).
  all: repeat split; try reflexivity; try (eexists; reflexivity).
  all: match goal with
       | |- context [if ?c then _ else _] => destruct c; reflexivity
       end.
Qed.

(** ** The run in which every stage succeeds *)

(** X8: when every stage succeeds, the run is exactly: load; open,
    write and close the control file; open, read and close the [id]
    file; create the sampling event; bind the program; enable the
    event; print the hint; block and await [SIGINT]; log the signal;
    close the event, then the program.  The exit status is 0. *)
Theorem successful_run_trace (P : Platform) :
  let o := main P init in
  let r := answers P in
  let a := bpf_prog_load_attr P BPF_PROG_TYPE_KPROBE (addr_prog P)
             (Z.of_nat (List.length prog)) (addr_license P) in
  let line := mk_control_line BPF_PROBE_ENTRY event_type
                (mk_event_alias ev_name (getpid P)) fn_name in
  let dir := mk_event_path event_type (mk_event_alias ev_name (getpid P)) in
  let id_path := Str.snprintf (Z.to_nat PATH_MAX) (dir ++ "/id") in
  0 <= r_ret (r 0%nat) -> 0 <= r_ret (r 1%nat) -> 0 <= r_ret (r 2%nat) ->
  0 <= r_ret (r 4%nat) -> 0 < r_ret (r 5%nat) < PATH_MAX ->
  0 <= r_ret (r 7%nat) -> 0 <= r_ret (r 8%nat) -> 0 <= r_ret (r 9%nat) ->
  0 <= r_ret (r 10%nat) -> 0 <= r_ret (r 11%nat) ->
  value o = 0
  /\ events o
     = [ Sys (c_bpf BPF_PROG_LOAD a (sizeof_bpf_attr a)) (r 0%nat);
         Sys (c_open kprobe_events (Z.lor O_WRONLY O_APPEND) 0) (r 1%nat);
         Sys (c_write (r_ret (r 1%nat)) line (Z.of_nat (String.length line)))
           (r 2%nat);
         Sys (c_close (r_ret (r 1%nat))) (r 3%nat);
         Sys (c_open id_path O_RDONLY 0) (r 4%nat);
         Sys (c_read (r_ret (r 4%nat)) PATH_MAX) (r 5%nat);
         Sys (c_close (r_ret (r 4%nat))) (r 6%nat);
         Sys (c_perf_event_open
                (tracing_event_attr
                   (id_text id_path (r_ret (r 5%nat)) (r_data (r 5%nat))))
                (-1) 0 (-1) PERF_FLAG_FD_CLOEXEC) (r 7%nat);
         Sys (c_ioctl (r_ret (r 7%nat)) PERF_EVENT_IOC_SET_BPF (r_ret (r 0%nat)))
           (r 8%nat);
         Sys (c_ioctl (r_ret (r 7%nat)) PERF_EVENT_IOC_ENABLE 0) (r 9%nat);
         Stderr run_hint;
         Sys (c_sigprocmask SIG_BLOCK [SIGINT]) (r 10%nat);
         Sys (c_sigwait [SIGINT]) (r 11%nat);
         Stderr (if r_int (r 11%nat) =? SIGINT
                 then "SIGINT received!" ++ nl
                 else "Unexpected signal received: "
                      ++ Str.fmt_d (r_int (r 11%nat)) ++ nl);
         Sys (c_close (r_ret (r 7%nat))) (r 12%nat);
         Sys (c_close (r_ret (r 0%nat))) (r 13%nat) ].
Proof.
  cbv zeta. intros H0 H1 H2 H4 H5 H7 H8 H9 H10 H11.
  assert (Hu : u64 (r_ret (answers P 5)) = r_ret (answers P 5)).
  { unfold u64. apply Z.mod_small. unfold PATH_MAX in H5. lia. }
  walk; outcomes; try rewrite Hu in *; try lia;
    split; reflexivity.
Qed.

(** ** Instances of the further properties *)

Lemma main_balanced_unless_control_fails_witness :
  0 <= r_ret (answers (P_run SIGINT) 0)
  /\ balanced (events (main (P_run SIGINT) init)) = true
  /\ List.length (releases (events (main (P_run SIGINT) init)))
     = List.length (acquisitions (events (main (P_run SIGINT) init))).
Proof.
  assert (H0 : 0 <= r_ret (answers (P_run SIGINT) 0)) by (simpl; lia).
  assert (Hio : forall fd rq a b,
             In (fd, rq, a, b) (ioctl_log (events (main (P_run SIGINT) init))) ->
             0 <= b).
  { intros fd rq a b Hin. vm_compute in Hin.
    destruct Hin as [Hin|[Hin|[]]]; injection Hin as _ _ _ <-; lia. }
  exact (conj H0 (main_balanced_unless_control_fails (P_run SIGINT)
                    (or_intror H0) Hio)).
Defined.

Lemma attachKprobe_succeeds_iff_witness :
  in_long (r_ret (answers (P_run SIGINT) 5))
  /\ (0 <= value (attachKprobe (P_run SIGINT) 3 (after 1)) ->
      value (attachKprobe (P_run SIGINT) 3 (after 1))
      = r_ret (answers (P_run SIGINT) 7)).
Proof.
  assert (H : in_long (r_ret (answers (P_run SIGINT) 5))).
  { unfold in_long, LONG_MIN, LONG_MAX. simpl. lia. }
  destruct (attachKprobe_succeeds_iff (P_run SIGINT) 3 (after 1) H)
    as [_ [Hv _]].
  exact (conj H Hv).
Defined.

Lemma registration_refused_witness :
  0 <= r_ret (answers P_no_symbol 1)
  /\ r_ret (answers P_no_symbol 2) < 0
  /\ value (attachKprobe P_no_symbol 3 (after 1)) = -1
  /\ opens (events (attachKprobe P_no_symbol 3 (after 1))) = [kprobe_events]
  /\ stderr_text (events (attachKprobe P_no_symbol 3 (after 1)))
     = "cannot attach kprobe, probe entry may not exist" ++ nl.
Proof.
  assert (Ho : 0 <= r_ret (answers P_no_symbol (calls (after 1)))).
  { simpl. lia. }
  assert (Hw : r_ret (answers P_no_symbol (S (calls (after 1)))) < 0).
  { simpl. lia. }
  destruct (registration_refused P_no_symbol 3 (after 1) Ho Hw)
    as [Hv [He _]].
  refine (conj Ho (conj Hw (conj Hv (conj _ _)))); rewrite He; reflexivity.
Defined.

Lemma decimal_id_reaches_request_witness :
  0 <= 1234 <= LONG_MAX
  /\ r_data (answers (P_run SIGINT) 5) = Str.fmt_d 1234 ++ nl
  /\ exists a,
       perf_requests
         (events (attachTracingEvent (P_run SIGINT) 3
                    "/sys/kernel/debug/tracing/events/kprobes/p_do_sys_open_bcc_4711"
                    (-1) (after 4)))
       = [(a, -1, 0, -1, PERF_FLAG_FD_CLOEXEC)]
       /\ config a = 1234
       /\ type a = perf_type_code PERF_TYPE_TRACEPOINT.
Proof.
  assert (Hn : 0 <= 1234 <= LONG_MAX) by (unfold LONG_MAX; lia).
  assert (Ho : 0 <= r_ret (answers (P_run SIGINT) (calls (after 4)))).
  { simpl. lia. }
  assert (Hd : r_data (answers (P_run SIGINT) (S (calls (after 4))))
               = Str.fmt_d 1234 ++ nl) by reflexivity.
  assert (Hr : r_ret (answers (P_run SIGINT) (S (calls (after 4))))
               = Z.of_nat (String.length (Str.fmt_d 1234 ++ nl)))
    by reflexivity.
  exact (conj Hn (conj Hd
           (decimal_id_reaches_request (P_run SIGINT) 3
              "/sys/kernel/debug/tracing/events/kprobes/p_do_sys_open_bcc_4711"
              (-1) (after 4) 1234 Hn Ho Hd Hr))).
Defined.

Lemma control_failure_leaks_one_descriptor_witness :
  0 <= r_ret (answers P_bind_refused 0)
  /\ In (5, PERF_EVENT_IOC_SET_BPF, 3, -1)
       (ioctl_log (events (main P_bind_refused init)))
  /\ List.length (acquisitions (events (main P_bind_refused init)))
     = S (List.length (releases (events (main P_bind_refused init)))).
Proof.
  assert (H0 : 0 <= r_ret (answers P_bind_refused 0)) by (simpl; lia).
  assert (Hin : In (5, PERF_EVENT_IOC_SET_BPF, 3, -1)
                  (ioctl_log (events (main P_bind_refused init)))).
  { vm_compute. left. reflexivity. }
  assert (Hneg : -1 < 0) by lia.
  destruct (control_failure_leaks_one_descriptor P_bind_refused H0
              (ex_intro _ 5 (ex_intro _ PERF_EVENT_IOC_SET_BPF
                 (ex_intro _ 3 (ex_intro _ (-1) (conj Hin Hneg))))))
    as [_ [Hl _]].
  exact (conj H0 (conj Hin Hl)).
Defined.

Lemma successful_run_trace_witness :
  0 < r_ret (answers (P_run SIGINT) 5) < PATH_MAX
  /\ value (main (P_run SIGINT) init) = 0
  /\ List.length (events (main (P_run SIGINT) init)) = 16%nat.
Proof.
  assert (H5 : 0 < r_ret (answers (P_run SIGINT) 5) < PATH_MAX).
  { unfold PATH_MAX. simpl. lia. }
  assert (Hs : forall k v, r_ret (answers (P_run SIGINT) k) = v -> 0 <= v ->
                           0 <= r_ret (answers (P_run SIGINT) k)).
  { intros k v <- H. exact H. }
  destruct (successful_run_trace (P_run SIGINT)
              (Hs 0%nat 3 eq_refl ltac:(lia)) (Hs 1%nat 4 eq_refl ltac:(lia))
              (Hs 2%nat 44 eq_refl ltac:(lia)) (Hs 4%nat 4 eq_refl ltac:(lia))
              H5
              (Hs 7%nat 5 eq_refl ltac:(lia)) (Hs 8%nat 0 eq_refl ltac:(lia))
              (Hs 9%nat 0 eq_refl ltac:(lia)) (Hs 10%nat 0 eq_refl ltac:(lia))
              (Hs 11%nat 0 eq_refl ltac:(lia)))
    as [Hv He].
  refine (conj H5 (conj Hv _)). rewrite He. reflexivity.
Defined.

(** * The wait, under the contract of [sigwait] *)




